(** * Verification of the training loop of [train.py]

    A shallow embedding of [calculateDataLoaderTrain], [trainEpoch] and
    [train_model] of [src/train.py], and the properties of the
    specification that concern them.

    - Python [float]s are IEEE-754 binary64 numbers: they are modelled by
      the executable specification [spec_float] of the standard library
      with [prec = 53] and [emax = 1024], so that comparisons and the
      product [batch * covid_percent] are the ones the interpreter
      computes, rounding included.
    - Python [int]s are [Z].
    - Tensors are nested lists; [t.size(0)] is the length of the outer list.
    - Exceptions and side effects are explicit: a computation maps the
      state of the outside world to an outcome (a value or a raised
      exception), a new world and the list of effects it performed, in
      program order.
    - What the file imports from other modules ([torch], [utils], [eval],
      [data], [model_covid]) is a collaborator: an interface
      ([Collaborators]) whose operations are left unspecified, apart from
      the documented behaviour of [torch.utils.data.DataLoader]. *)

From Stdlib Require Import ZArith List String DecimalString Bool Lia Permutation.
From Stdlib Require Import Floats.SpecFloat.
Import ListNotations.
Local Open Scope string_scope.
Local Open Scope list_scope.
Local Open Scope Z_scope.

(** ** Python exceptions and outcomes *)

Inductive exn : Type :=
| StopIteration
| IndexError
| OverflowError
| ZeroDivisionError
| ValueError (msg : string)
| RuntimeError (msg : string)
| UnboundLocalError (var : string).

Inductive result (A : Type) : Type :=
| Ok (a : A)
| Raise (e : exn).
Arguments Ok {A} a.
Arguments Raise {A} e.

(** [str(z)], as [format] prints an integer in a message. *)
Definition str (z : Z) : string := NilZero.string_of_int (Z.to_int z).

(** ** Binary64 floating point numbers *)

Module F64.

Definition prec : Z := 53.
Definition emax : Z := 1024.

Definition float : Type := spec_float.

(** Conversion of an [int] that is an operand of a float operation:
    correctly rounded, and [OverflowError] when the integer is out of the
    range of the format. *)
Definition of_Z (z : Z) : float := binary_normalize prec emax z 0 false.

Definition of_int (z : Z) : result float :=
  match of_Z z with
  | S754_infinity _ => Raise OverflowError
  | f => Ok f
  end.

Definition mul : float -> float -> float := SFmul prec emax.
Definition add : float -> float -> float := SFadd prec emax.
Definition div : float -> float -> float := SFdiv prec emax.

(** [a < b], [a <= b], [a > b], [a >= b]: all are [False] on a NaN. *)
Definition lt (a b : float) : bool := SFltb a b.
Definition le (a b : float) : bool := SFleb a b.
Definition gt (a b : float) : bool := SFltb b a.
Definition ge (a b : float) : bool := SFleb b a.

(** The value of a decimal literal [n/d] (for instance [0.80] is
    [decimal 80 100]): the binary64 number nearest to the fraction.
    Both integers are exactly representable, and the division of the
    format is correctly rounded. *)
Definition decimal (n d : Z) : float := div (of_Z n) (of_Z d).

(** [int(f)]: truncation toward zero; [ValueError] on a NaN and
    [OverflowError] on an infinity. *)
Definition trunc_mag (m : positive) (e : Z) : Z :=
  if 0 <=? e then Z.pos m * 2 ^ e else Z.pos m / 2 ^ (- e).

Definition to_int (f : float) : result Z :=
  match f with
  | S754_zero _ => Ok 0
  | S754_finite s m e => Ok (cond_Zopp s (trunc_mag m e))
  | S754_infinity _ => Raise OverflowError
  | S754_nan => Raise (ValueError "cannot convert float NaN to integer")
  end.

(** [max(a, b)] of the interpreter on two floats: the first argument,
    unless the second is strictly greater. *)
Definition max (a b : float) : float := if gt b a then b else a.

(** Rounding to the nearest integer (ties to even), the [round] of the
    specification.  It is not used by the program. *)
Definition round_mag (m : positive) (e : Z) : Z :=
  if 0 <=? e then Z.pos m * 2 ^ e
  else
    let d := 2 ^ (- e) in
    let q := Z.pos m / d in
    let r := Z.pos m mod d in
    match 2 * r ?= d with
    | Lt => q
    | Gt => q + 1
    | Eq => if Z.even q then q else q + 1
    end.

Definition round (f : float) : result Z :=
  match f with
  | S754_zero _ => Ok 0
  | S754_finite s m e => Ok (cond_Zopp s (round_mag m e))
  | S754_infinity _ => Raise OverflowError
  | S754_nan => Raise (ValueError "cannot convert float NaN to integer")
  end.

(** [a / b] on two floats: the interpreter raises [ZeroDivisionError]
    on a zero divisor instead of returning an infinity or a NaN. *)
Definition truediv (a b : float) : result float :=
  match b with
  | S754_zero _ => Raise ZeroDivisionError
  | _ => Ok (div a b)
  end.

Definition is_nan (f : float) : bool :=
  match f with S754_nan => true | _ => false end.

Definition zero : float := S754_zero false.

End F64.

Abbreviation float := F64.float.

(** ** Configuration, samples and tensors *)

(** The fields of [args_dict] that [train.py] reads. *)
Record Args : Type := {
  model : string;
  n_classes : Z;
  lr : float;
  class_weights : list float;
  factor : float;
  patience : Z;
  epochs : Z;
  batch : Z;
  covid_percent : float;
  train_txt : string;
  train_folder : string
}.

(** An image tensor after [transforms.ToTensor()]: channels, rows,
    columns.  A batch of images is the list of its images (dimension 0 is
    the batch dimension), so [x.size(0)] is [len x] on both. *)
Definition Image : Type := list (list (list float)).

(** An item of [data.Dataset]: the transformed image and its label (the
    third component of the item is dropped by [trainEpoch]). *)
Record Sample : Type := { image : Image; target : Z }.

Definition len {A : Type} (l : list A) : Z := Z.of_nat (List.length l).

(** [t[i]] for [0 <= i]. *)
Definition getitem {A : Type} (t : list A) (i : nat) : result A :=
  match nth_error t i with
  | Some a => Ok a
  | None => Raise IndexError
  end.

(** [torch.cat((a, b))] along dimension 0. *)
Definition torch_cat {A : Type} (a b : list A) : list A := a ++ b.

(** [range(n)] and [enumerate]. *)
Definition range (n : Z) : list Z := map Z.of_nat (seq 0 (Z.to_nat n)).

Definition enumerate {A : Type} (l : list A) : list (Z * A) :=
  combine (range (len l)) l.

(** ** Running averages

    Modelled from the spec: [utils.AverageMeter] is not part of the given
    sources.  The specification describes it as a running weighted
    average with count and sum fields, reset at epoch start, whose
    [update(val, n)] accumulates [val] with weight [n]. *)
Module AverageMeter.

Record t : Type := {
  val : float;
  avg : float;
  sum : float;
  count : Z
}.

Definition init : t :=
  {| val := F64.zero; avg := F64.zero; sum := F64.zero; count := 0 |}.

Definition update (m : t) (v : float) (n : Z) : t :=
  let sum' := F64.add (sum m) (F64.mul v (F64.of_Z n)) in
  let count' := count m + n in
  {| val := v; avg := F64.div sum' (F64.of_Z count');
     sum := sum'; count := count' |}.

End AverageMeter.

(** ** The outside world *)

(** The types of the collaborators: the state of everything the program
    does not own (model parameters, optimizer and scheduler, the random
    generator, the plot server, the file system), the output of the
    network on a batch, and a serialised state ([state_dict()]). *)
Class External : Type := {
  World : Type;
  Output : Type;
  StateDict : Type
}.

Section Effects.
Context {X : External}.

(** The dictionary passed to [utils.save_model]. *)
Record Checkpoint : Type := {
  ckpt_epoch : Z;
  state_dict : StateDict;
  ckpt_best_sensit : float;
  optimizer : StateDict;
  valtrack : Z;
  curr_val : float
}.

Inductive PrintLine : Type :=
| TrainProgress (epoch batch_idx total : Z)
                (percent loss_val loss_avg acc_val acc_avg : float)
| ModelSelected (tag : string)
| StartTraining
| BestModelFound
| ValidationSummary (best_sensitivity current_acc : float) (pat : Z).

(** The calls the program makes to its collaborators, with the values
    they returned when the program uses them. *)
Inductive Event : Type :=
| Print (l : PrintLine)
| Plot (var_name split_name title_name : string) (x : Z) (y : float)
| SaveModel (c : Checkpoint)
| NewCovidNet (classes : Z)
| NewResNet (classes : Z)
| ModelTo
| NewAdam (rate : float)
| NewCrossEntropyLoss (weights : list float)
| Resume (best : float)
| NewReduceLROnPlateau (fact : float) (pat : Z)
| PreprocessSplit (txt folder : string)
| CalculateDataLoaderTest
| ModelTrain
| RandomSampler (perm : list Sample)
| ModelCall (x_batch : list Image) (out : Output)
| Criterion (out : Output) (y_batch : list Z) (loss : float)
| ZeroGrad
| Backward
| OptimizerStep
| ValEpoch (sensitivity_covid accuracy : float)
| SchedulerStep (metric : float).
End Effects.

(** The operations of the collaborators.  [perform] is the change an
    external call makes to the world; the other functions give what a call
    returns in a given world.  Nothing is assumed of them, except that a
    shuffling sampler yields a permutation of the data set. *)
Class Collaborators {X : External} : Type := {
  perform : Event -> World -> World;
  randperm : World -> list Sample -> list Sample;
  randperm_Permutation : forall w l, Permutation l (randperm w l);
  train_datasets : World -> string -> string -> list Sample * list Sample;
  model_output : World -> list Image -> Output;
  criterion_loss : World -> Output -> list Z -> float;
  max_indices_of : Output -> list Z;
  valEpoch_result : World -> float * float;
  resume_best_sensit : World -> float;
  model_state_dict : World -> StateDict;
  optimizer_state_dict : World -> StateDict
}.

(** ** Computations *)

Section Program.
Context {X : External} {C : Collaborators}.

(** A computation runs in a world and gives an outcome, the new world
    and the external calls it made, oldest first.  A raised exception
    keeps the world and the calls made before it. *)
Definition M (A : Type) : Type := World -> result A * World * list Event.

Definition ret {A : Type} (a : A) : M A := fun w => (Ok a, w, []).

Definition bind {A B : Type} (m : M A) (f : A -> M B) : M B :=
  fun w =>
    match m w with
    | (Ok a, w1, t1) =>
        match f a w1 with
        | (r, w2, t2) => (r, w2, t1 ++ t2)
        end
    | (Raise e, w1, t1) => (Raise e, w1, t1)
    end.

Definition raise {A : Type} (e : exn) : M A := fun w => (Raise e, w, []).

(** A pure step that may raise. *)
Definition lift {A : Type} (r : result A) : M A := fun w => (r, w, []).

(** An external call. *)
Definition call (ev : Event) : M unit := fun w => (Ok tt, perform ev w, [ev]).

(** What a collaborator answers in the current world. *)
Definition query {A : Type} (f : World -> A) : M A := fun w => (Ok (f w), w, []).

(** [for x in xs: s = body(s, x)]. *)
Fixpoint for_each {A S : Type} (body : S -> A -> M S) (xs : list A) (s : S)
  : M S :=
  match xs with
  | [] => ret s
  | x :: rest => bind (body s x) (fun s' => for_each body rest s')
  end.

End Program.

Declare Scope py_scope.
Delimit Scope py_scope with py.
Notation "x <- c1 ;; c2" := (bind c1 (fun x => c2))
  (at level 61, c1 at next level, right associativity) : py_scope.
Notation "' pat <- c1 ;; c2" := (bind c1 (fun x => match x with pat => c2 end))
  (at level 61, pat pattern, c1 at next level, right associativity) : py_scope.
Notation "c1 ;; c2" := (bind c1 (fun _ => c2))
  (at level 61, right associativity) : py_scope.

(** ** [torch.utils.data.DataLoader]

    The part of the library class that [train.py] relies on, with
    [shuffle=True] and the default [drop_last=False]. *)
Section DataLoader.
Context {X : External} {C : Collaborators}.
Local Open Scope py_scope.

Record DataLoader : Type := { dataset : list Sample; batch_size : Z }.

(** The constructor first builds the shuffling sampler, which refuses an
    empty data set, and then the batch sampler, which refuses a batch
    size that is not positive. *)
Definition new_DataLoader (ds : list Sample) (bs : Z) : result DataLoader :=
  if len ds =? 0
  then Raise (ValueError
         "num_samples should be a positive integer value, but got num_samples=0")
  else if bs <=? 0
  then Raise (ValueError
         ("batch_size should be a positive integer value, but got batch_size="
          ++ str bs)%string)
  else Ok {| dataset := ds; batch_size := bs |}.

(** The batch sampler: it collects the indices of the sampler into a
    batch, yields the batch when it is full, and yields what is left at
    the end when it is not empty. *)
Fixpoint batch_sampler {A : Type} (bs : nat) (cur : list A) (sampler : list A)
  : list (list A) :=
  match sampler with
  | [] => match cur with [] => [] | _ => [cur] end
  | idx :: rest =>
      let cur' := cur ++ [idx] in
      if Nat.eqb (List.length cur') bs
      then cur' :: batch_sampler bs [] rest
      else batch_sampler bs cur' rest
  end.

(** [iter(dl)]: a new iterator draws a new permutation of the whole data
    set; the iterator is the list of the batches it has still to give. *)
Definition iter (dl : DataLoader) : M (list (list Sample)) :=
  perm <- query (fun w => randperm w (dataset dl)) ;;
  call (RandomSampler perm) ;;
  ret (batch_sampler (Z.to_nat (batch_size dl)) [] perm).

(** [next(it)]: the first batch and the advanced iterator. *)
Definition next {A : Type} (it : list A) : M (A * list A) :=
  match it with
  | [] => raise StopIteration
  | b :: rest => ret (b, rest)
  end.

(** [len(dl)]: the number of batches. *)
Definition len_DataLoader (dl : DataLoader) : Z :=
  (len (dataset dl) + batch_size dl - 1) / batch_size dl.

End DataLoader.

(** ** [train.py] *)

Definition and_then {A B : Type} (r : result A) (f : A -> result B) : result B :=
  match r with
  | Ok a => f a
  | Raise e => Raise e
  end.

(** [covid_size = max(int(args_dict.batch * args_dict.covid_percent), 1)]:
    the integer is converted to a float, the product is the binary64
    product, and [int] truncates it. *)
Definition covid_size (args : Args) : result Z :=
  and_then (F64.of_int (batch args)) (fun b =>
  and_then (F64.to_int (F64.mul b (covid_percent args))) (fun n =>
  Ok (Z.max n 1))).

(** The accuracy threshold of the checkpoint policy, the literal [0.80]. *)
Definition min_accuracy : float := F64.decimal 80 100.

(** The architectures of [model_covid]. *)
Inductive Model : Type := CovidNet | ResNet.

Section Train.
Context {X : External} {C : Collaborators}.
Local Open Scope py_scope.

Definition calculateDataLoaderTrain (args_dict : Args)
  : M (DataLoader * DataLoader) :=
  call (PreprocessSplit (train_txt args_dict) (train_folder args_dict)) ;;
  ' (train_non_covid, train_covid) <-
    query (fun w => train_datasets w (train_txt args_dict) (train_folder args_dict)) ;;
  covid_size <- lift (covid_size args_dict) ;;
  dl_non_covid <- lift (new_DataLoader train_non_covid (batch args_dict - covid_size)) ;;
  dl_covid <- lift (new_DataLoader train_covid covid_size) ;;
  ret (dl_non_covid, dl_covid).

(** The two meters of [trainEpoch]. *)
Record Meters : Type := {
  losses : AverageMeter.t;
  accuracies : AverageMeter.t
}.

(** [a == b] on two tensors of one dimension: the comparison is made
    element by element when the sizes agree, a tensor of one element is
    compared with every element of the other, and any other pair of
    sizes is refused. *)
Definition tensor_eq (a b : list Z) : result (list bool) :=
  if len a =? len b then Ok (map (fun p => Z.eqb (fst p) (snd p)) (combine a b))
  else
    match a, b with
    | [x], _ => Ok (map (fun y => Z.eqb x y) b)
    | _, [y] => Ok (map (fun x => Z.eqb x y) a)
    | _, _ =>
        Raise (RuntimeError
          ("The size of tensor a (" ++ str (len a)
           ++ ") must match the size of tensor b (" ++ str (len b)
           ++ ") at non-singleton dimension 0")%string)
    end.

(** [(max_indices == y_batch).sum().item()] *)
Definition count_equal (a b : list Z) : result Z :=
  and_then (tensor_eq a b) (fun eqs => Ok (len (filter (fun e => e) eqs))).

(** [n / d] on two integers. *)
Definition int_truediv (n d : Z) : result float :=
  F64.truediv (F64.of_Z n) (F64.of_Z d).

(** The body of the loop of [trainEpoch] (lines 54 to 81), on the batch
    [batch_nc] of index [batch_idx] of the majority loader. *)
Definition train_batch (dl_non_covid dl_covid : DataLoader) (epoch : Z)
    (meters : Meters) (item : Z * list Sample) : M Meters :=
  let '(batch_idx, batch_nc) := item in
  let x_batch_nc := map image batch_nc in
  let y_batch_nc := map target batch_nc in
  it <- iter dl_covid ;;
  ' (batch_c, _) <- next it ;;
  let x_batch_c := map image batch_c in
  let y_batch_c := map target batch_c in
  let x_batch := torch_cat x_batch_nc x_batch_c in
  let y_batch := torch_cat y_batch_nc y_batch_c in
  output <- query (fun w => model_output w x_batch) ;;
  call (ModelCall x_batch output) ;;
  train_loss <- query (fun w => criterion_loss w output y_batch) ;;
  call (Criterion output y_batch train_loss) ;;
  x0 <- lift (getitem x_batch 0) ;;
  let losses' := AverageMeter.update (losses meters) train_loss (len x0) in
  let max_indices := max_indices_of output in
  train_acc <- lift (and_then (count_equal max_indices y_batch) (fun correct =>
                     int_truediv correct (len max_indices))) ;;
  let accuracies' := AverageMeter.update (accuracies meters) train_acc (len x0) in
  call ZeroGrad ;;
  call Backward ;;
  call OptimizerStep ;;
  percent <- lift (F64.truediv (F64.mul (F64.of_Z 100) (F64.of_Z batch_idx))
                               (F64.of_Z (len_DataLoader dl_non_covid))) ;;
  call (Print (TrainProgress epoch batch_idx (len_DataLoader dl_non_covid) percent
                 (AverageMeter.val losses') (AverageMeter.avg losses')
                 (AverageMeter.val accuracies') (AverageMeter.avg accuracies'))) ;;
  ret {| losses := losses'; accuracies := accuracies' |}.

Definition trainEpoch (dl_non_covid dl_covid : DataLoader) (epoch : Z) : M unit :=
  let meters := {| losses := AverageMeter.init; accuracies := AverageMeter.init |} in
  call ModelTrain ;;
  batches <- iter dl_non_covid ;;
  meters <- for_each (train_batch dl_non_covid dl_covid epoch) (enumerate batches) meters ;;
  call (Plot "loss" "train" "Cross Entropy Loss" epoch (AverageMeter.avg (losses meters))) ;;
  call (Plot "Acc" "train" "Accuracy" epoch (AverageMeter.avg (accuracies meters))).

(** [eval.valEpoch(args_dict, dl_test, model)] *)
Definition valEpoch : M (float * float) :=
  r <- query valEpoch_result ;;
  call (ValEpoch (fst r) (snd r)) ;;
  ret r.

(** Lines 127 to 140: the decision to save, given the metrics of the
    epoch.  The result is the new value of [best_sensit]. *)
Definition checkpoint_policy (epoch pat_track : Z) (best_sensit : float)
    (sensitivity_covid accuracy : float) : M float :=
  if F64.ge accuracy min_accuracy then
    let is_best := F64.gt sensitivity_covid best_sensit in
    if is_best then
      call (Print BestModelFound) ;;
      let best_sensit := F64.max sensitivity_covid best_sensit in
      sd <- query model_state_dict ;;
      od <- query optimizer_state_dict ;;
      call (SaveModel {| ckpt_epoch := epoch + 1;
                         state_dict := sd;
                         ckpt_best_sensit := best_sensit;
                         optimizer := od;
                         valtrack := pat_track;
                         curr_val := accuracy |}) ;;
      ret best_sensit
    else ret best_sensit
  else ret best_sensit.

(** Lines 124 to 146: what an epoch does once validation has returned. *)
Definition after_validation (epoch pat_track : Z) (best_sensit : float)
    (sensitivity_covid accuracy : float) : M float :=
  call (SchedulerStep accuracy) ;;
  best_sensit <- checkpoint_policy epoch pat_track best_sensit sensitivity_covid accuracy ;;
  call (Print (ValidationSummary best_sensit accuracy pat_track)) ;;
  call (Plot "Sensitivity" "test" "sensitivity covid" epoch sensitivity_covid) ;;
  call (Plot "Accuracy" "test" "Accuracy" epoch accuracy) ;;
  ret best_sensit.

(** The body of the loop of [train_model] (lines 117 to 146). *)
Definition train_model_epoch (dl_non_covid dl_covid : DataLoader) (pat_track : Z)
    (best_sensit : float) (epoch : Z) : M float :=
  trainEpoch dl_non_covid dl_covid epoch ;;
  ' (sensitivity_covid, accuracy) <- valEpoch ;;
  after_validation epoch pat_track best_sensit sensitivity_covid accuracy.

(** The loop of [train_model] (lines 115 to 146). *)
Definition train_loop (args_dict : Args) (dl_non_covid dl_covid : DataLoader)
    (best_sensit : float) : M float :=
  let pat_track := 0 in
  for_each (train_model_epoch dl_non_covid dl_covid pat_track)
           (range (epochs args_dict)) best_sensit.

(** Reading a local variable that may not have been assigned. *)
Definition local {A : Type} (name : string) (v : option A) : M A :=
  match v with
  | Some a => ret a
  | None => raise (UnboundLocalError name)
  end.

Definition train_model (args_dict : Args) : M unit :=
  model_var <-
    (if String.eqb (model args_dict) "covidnet" then
       call (NewCovidNet (n_classes args_dict)) ;; ret (Some CovidNet)
     else if String.eqb (model args_dict) "resnet" then
       call (NewResNet (n_classes args_dict)) ;; ret (Some ResNet)
     else ret None) ;;
  call (Print (ModelSelected (model args_dict))) ;;
  _ <- local "model" model_var ;;
  call ModelTo ;;
  call (NewAdam (lr args_dict)) ;;
  call (NewCrossEntropyLoss (class_weights args_dict)) ;;
  best_sensit <- query resume_best_sensit ;;
  call (Resume best_sensit) ;;
  call (NewReduceLROnPlateau (factor args_dict) (patience args_dict)) ;;
  ' (dl_non_covid, dl_covid) <- calculateDataLoaderTrain args_dict ;;
  call CalculateDataLoaderTest ;;
  call (Print StartTraining) ;;
  _ <- train_loop args_dict dl_non_covid dl_covid best_sensit ;;
  ret tt.

End Train.

(** ** Observations on a run

    What the statements below read in the outcome of a computation and in
    the list of the calls it made. *)

Section Observations.
Context {X : External} {C : Collaborators}.

(** Every call made by [m], in any world, satisfies [P]. *)
Definition emits {A : Type} (P : Event -> Prop) (m : M A) : Prop :=
  forall w, Forall P (snd (m w)).

(** A trace saves a checkpoint when it calls [utils.save_model]. *)
Definition is_save (ev : Event) : bool :=
  match ev with SaveModel _ => true | _ => false end.

Definition saves (t : list Event) : bool := existsb is_save t.

(** The metrics returned by the validation passes of a trace. *)
Definition validations (t : list Event) : list (float * float) :=
  flat_map (fun ev => match ev with ValEpoch s a => [(s, a)] | _ => [] end) t.

(** The calls made by [trainEpoch]. *)
Definition training_event (ev : Event) : bool :=
  match ev with
  | ModelTrain | RandomSampler _ | ModelCall _ _ | Criterion _ _ _
  | ZeroGrad | Backward | OptimizerStep => true
  | Print (TrainProgress _ _ _ _ _ _ _ _) => true
  | Plot _ split_name _ _ _ => String.eqb split_name "train"
  | _ => false
  end.

(** The guard of the checkpoint policy: [accuracy >= 0.80] and
    [sensitivity_covid > best_sensit]. *)
Definition qualifies (best_sensit sensitivity_covid accuracy : float) : bool :=
  F64.ge accuracy min_accuracy && F64.gt sensitivity_covid best_sensit.

(** The checkpoint saved in world [w]. *)
Definition checkpoint_of (epoch pat_track : Z) (best accuracy : float) (w : World)
  : Checkpoint :=
  {| ckpt_epoch := epoch + 1;
     state_dict := model_state_dict w;
     ckpt_best_sensit := best;
     optimizer := optimizer_state_dict w;
     valtrack := pat_track;
     curr_val := accuracy |}.

(** [b2 >= b1]: the same value, or a strictly greater one. *)
Definition not_below (b1 b2 : float) : Prop := b2 = b1 \/ F64.gt b2 b1 = true.

(** The calls of one epoch of the loop of [train_model], in order. *)
Definition epoch_trace (dl_non_covid dl_covid : DataLoader) (e : Z)
    (t : list Event) : Prop :=
  exists w w1 t_train sens acc t_ck b,
    trainEpoch dl_non_covid dl_covid e w = (Ok tt, w1, t_train) /\
    Forall (fun ev => training_event ev = true) t_train /\
    valEpoch_result w1 = (sens, acc) /\
    (t_ck = [] \/ exists c, t_ck = [Print BestModelFound; SaveModel c]) /\
    t = t_train
        ++ [ValEpoch sens acc]
        ++ [SchedulerStep acc]
        ++ t_ck
        ++ [Print (ValidationSummary b acc 0);
            Plot "Sensitivity" "test" "sensitivity covid" e sens;
            Plot "Accuracy" "test" "Accuracy" e acc].

(** The calls [train_model] makes before its loop. *)
Definition setup_event (ev : Event) : bool :=
  match ev with
  | NewCovidNet _ | NewResNet _ | ModelTo | NewAdam _ | NewCrossEntropyLoss _
  | Resume _ | NewReduceLROnPlateau _ _ | PreprocessSplit _ _
  | CalculateDataLoaderTest => true
  | Print (ModelSelected _) | Print StartTraining => true
  | _ => false
  end.

(** The patience counter shown or stored by a call is zero. *)
Definition patience_zero (ev : Event) : Prop :=
  match ev with
  | SaveModel c => valtrack c = 0
  | Print (ValidationSummary _ _ p) => p = 0
  | _ => True
  end.

(** A call, with the patience counter it shows or stores erased. *)
Definition erase_patience (ev : Event) : Event :=
  match ev with
  | SaveModel c =>
      SaveModel {| ckpt_epoch := ckpt_epoch c; state_dict := state_dict c;
                   ckpt_best_sensit := ckpt_best_sensit c;
                   optimizer := optimizer c; valtrack := 0;
                   curr_val := curr_val c |}
  | Print (ValidationSummary b a _) => Print (ValidationSummary b a 0)
  | _ => ev
  end.

(** An explicit rejection: an exception other than the failure to read
    an unbound variable, raised before any call is made. *)
Definition rejected_explicitly {A : Type} (r : result A * World * list Event) : Prop :=
  exists e, fst (fst r) = Raise e /\ (forall v, e <> UnboundLocalError v) /\ snd r = [].

(** [0 <= f <= 1] *)
Definition in_unit_interval (f : float) : bool :=
  F64.le F64.zero f && F64.le f (F64.of_Z 1).

(** The sizes of the batches given to the network, in order. *)
Definition batch_sizes (t : list Event) : list Z :=
  flat_map (fun ev => match ev with ModelCall x _ => [len x] | _ => [] end) t.

(** The labels of the batches given to the loss, in order. *)
Definition batch_labels (t : list Event) : list (list Z) :=
  flat_map (fun ev => match ev with Criterion _ y _ => [y] | _ => [] end) t.

(** The draw of a permutation by a shuffling sampler. *)
Definition is_sampler (ev : Event) : bool :=
  match ev with RandomSampler _ => true | _ => false end.

(** The calls of one training step on the majority batch [batch_nc]:
    a new permutation of the whole minority pool is drawn, and its first
    [batch_size] samples are appended to the majority batch. *)
Definition fresh_minority_step (dl_covid : DataLoader) (item : Z * list Sample)
    (t : list Event) : Prop :=
  exists w out rest,
    let perm := randperm w (dataset dl_covid) in
    let batch_c := firstn (Z.to_nat (batch_size dl_covid)) perm in
    Permutation (dataset dl_covid) perm /\
    t = RandomSampler perm
        :: ModelCall (map image (snd item) ++ map image batch_c) out
        :: rest /\
    Forall (fun ev => is_sampler ev = false) rest.

End Observations.

(** [covid_size] as the specification words it: with [round]. *)
Definition covid_size_spec (args_dict : Args) : result Z :=
  and_then (F64.of_int (batch args_dict)) (fun b =>
  and_then (F64.round (F64.mul b (covid_percent args_dict))) (fun n =>
  Ok (Z.max n 1))).

(** ** Further observations on a run *)

Section MoreObservations.
Context {X : External} {C : Collaborators}.

(** The checkpoints saved by a trace, oldest first. *)
Definition checkpoints (t : list Event) : list Checkpoint :=
  flat_map (fun ev => match ev with SaveModel c => [c] | _ => [] end) t.

(** The values of [best_sensit] stored in the checkpoints of a trace. *)
Definition saved_bests (t : list Event) : list float :=
  map ckpt_best_sensit (checkpoints t).

(** Every value is strictly greater than the one before it, the first one
    than [b]. *)
Fixpoint strictly_increasing_from (b : float) (l : list float) : Prop :=
  match l with
  | [] => True
  | x :: rest => F64.gt x b = true /\ strictly_increasing_from x rest
  end.

(** The metrics the scheduler was stepped on. *)
Definition scheduler_metrics (t : list Event) : list float :=
  flat_map (fun ev => match ev with SchedulerStep a => [a] | _ => [] end) t.

(** The points plotted for the test split: epoch, sensitivity and
    accuracy series. *)
Definition test_sensitivities (t : list Event) : list (Z * float) :=
  flat_map (fun ev =>
    match ev with
    | Plot var_name split_name _ x y =>
        if String.eqb var_name "Sensitivity" && String.eqb split_name "test"
        then [(x, y)] else []
    | _ => []
    end) t.

(** In a run of [n] epochs: a checkpoint stores an accuracy of at least
    [0.80] and an epoch number from 1 to [n]; a plotted point has an epoch
    index from 0 to [n - 1]. *)
Definition within_run (n : Z) (ev : Event) : Prop :=
  match ev with
  | SaveModel c => F64.ge (curr_val c) min_accuracy = true /\ 1 <= ckpt_epoch c <= n
  | Plot _ _ _ x _ => 0 <= x < n
  | _ => True
  end.

(** The batches given to the network, in order. *)
Definition model_inputs (t : list Event) : list (list Image) :=
  flat_map (fun ev => match ev with ModelCall x _ => [x] | _ => [] end) t.

(** What the steps of a training epoch draw: each batch given to the
    network is a majority part followed by a minority part; the majority
    parts are, end to end, a permutation of the majority pool, and every
    minority part is the beginning of a permutation of the minority pool.
    The majority parts have [b_nc] samples, the last one what is left of
    the pool when [b_nc] does not divide its size; the minority parts have
    [b_c] samples, or the whole minority pool when it is smaller. *)
Definition draws (dl_non_covid dl_covid : DataLoader) (b_nc b_c : Z)
    (t : list Event) : Prop :=
  exists parts : list (list Sample * list Sample),
    model_inputs t = map (fun p => map image (fst p) ++ map image (snd p)) parts /\
    Permutation (dataset dl_non_covid) (List.concat (map fst parts)) /\
    Forall (fun p => exists rest, Permutation (dataset dl_covid) (snd p ++ rest)) parts /\
    map (fun p => len (fst p)) parts =
      (let n := len (dataset dl_non_covid) in
       repeat b_nc (Z.to_nat (n / b_nc)) ++
       (if n mod b_nc =? 0 then [] else [n mod b_nc])) /\
    Forall (fun p => len (snd p) = Z.min b_c (len (dataset dl_covid))) parts.

(** A loop seen from outside: [R s x s' t] relates the state before an
    iteration, its item, the state after it and its calls;
    [chain R s xs ts sf] goes through the items [xs] from the state [s] to
    the state [sf], with the calls [ts], one list per iteration. *)
Fixpoint chain {A S : Type} (R : S -> A -> S -> list Event -> Prop)
    (s : S) (xs : list A) (ts : list (list Event)) (sf : S) : Prop :=
  match xs, ts with
  | [], [] => sf = s
  | x :: xs', t :: ts' => exists s', R s x s' t /\ chain R s' xs' ts' sf
  | _, _ => False
  end.

(** The training step of index [idx] in an epoch of [total] steps, from
    the meters [m] to the meters [m']: the draw of the minority
    permutation, the forward pass, the loss, then [zero_grad], [backward]
    and the optimizer step, then the progress line.  The loss meter is
    updated with the loss the criterion returned, the accuracy meter with
    the fraction of the predictions that equal the labels, both with the
    weight [x_batch[0].size(0)]; the progress line shows the updated
    meters. *)
Definition step_trace (epoch total : Z) (m : Meters) (idx : Z) (m' : Meters)
    (t : list Event) : Prop :=
  exists perm x_batch x0 out y_batch loss acc pct,
    getitem x_batch 0 = Ok x0 /\
    and_then (count_equal (max_indices_of out) y_batch) (fun correct =>
      int_truediv correct (len (max_indices_of out))) = Ok acc /\
    F64.truediv (F64.mul (F64.of_Z 100) (F64.of_Z idx)) (F64.of_Z total) = Ok pct /\
    losses m' = AverageMeter.update (losses m) loss (len x0) /\
    accuracies m' = AverageMeter.update (accuracies m) acc (len x0) /\
    t = [RandomSampler perm; ModelCall x_batch out; Criterion out y_batch loss;
         ZeroGrad; Backward; OptimizerStep;
         (Print (TrainProgress epoch idx total pct
                  (AverageMeter.val (losses m')) (AverageMeter.avg (losses m'))
                  (AverageMeter.val (accuracies m')) (AverageMeter.avg (accuracies m'))))].

End MoreObservations.

(** A float that is a zero or a negative number. *)
Definition non_positive (f : float) : Prop :=
  match f with
  | S754_zero _ => True
  | S754_finite s _ _ => s = true
  | _ => False
  end.

(** ** A concrete world

    An instance of the collaborators on which the program runs to the
    end: ten majority and five minority images of three channels, a
    network that always answers class 0, a loss equal to the size of the
    batch, and three scripted validation passes. *)

Module Demo.

(** The random generator is a counter, validation answers from a script
    and the two pools are fixed. *)
Record world : Type := {
  rng : nat;
  script : list (float * float);
  pools : list Sample * list Sample
}.

#[export] Instance ext : External :=
  {| World := world; Output := list Z; StateDict := nat |}.

(** The sampler rotates the data set by the value of the counter. *)
Definition rotate {A : Type} (k : nat) (l : list A) : list A :=
  skipn (k mod List.length l) l ++ firstn (k mod List.length l) l.

Lemma rotate_Permutation {A : Type} (k : nat) (l : list A) :
  Permutation l (rotate k l).
Proof.
  unfold rotate.
  rewrite <- (firstn_skipn (k mod List.length l) l) at 1.
  apply Permutation_app_comm.
Defined.

Definition step (ev : Event) (w : world) : world :=
  match ev with
  | RandomSampler _ => {| rng := S (rng w); script := script w; pools := pools w |}
  | ValEpoch _ _ => {| rng := rng w; script := tl (script w); pools := pools w |}
  | _ => w
  end.

#[export] Instance collab : Collaborators :=
  {| perform := step;
     randperm := fun w l => rotate (rng w) l;
     randperm_Permutation := fun w l => rotate_Permutation (rng w) l;
     train_datasets := fun w _ _ => pools w;
     model_output := fun _ x => map (fun _ => 0) x;
     criterion_loss := fun _ _ y => F64.of_Z (len y);
     max_indices_of := fun out => out;
     valEpoch_result := fun w => hd (F64.zero, F64.zero) (script w);
     resume_best_sensit := fun _ => F64.zero;
     model_state_dict := fun w => rng w;
     optimizer_state_dict := fun w => rng w |}.

(** Images of three channels, one row and one column. *)
Definition rgb (v : Z) : Image :=
  [[[F64.of_Z v]]; [[F64.of_Z v]]; [[F64.of_Z v]]].

Definition non_covid_pool : list Sample :=
  map (fun v => {| image := rgb v; target := 0 |}) (range 10).

Definition covid_pool : list Sample :=
  map (fun v => {| image := rgb (100 + v); target := 1 |}) (range 5).

Definition config (tag : string) (n : Z) (b : Z) (p : float) : Args :=
  {| model := tag; n_classes := 2; lr := F64.decimal 2 100000;
     class_weights := [F64.of_Z 1; F64.of_Z 1];
     factor := F64.decimal 7 10; patience := 5; epochs := n;
     batch := b; covid_percent := p;
     train_txt := "train_split.txt"; train_folder := "data/train" |}.

(** Batches of ten samples, three tenths of them from the minority. *)
Definition args (tag : string) (n : Z) : Args := config tag n 10 (F64.decimal 3 10).

(** Three validation passes: (sensitivity, accuracy) is (0.95, 0.79),
    then (0.80, 0.85), then (0.70, 0.90). *)
Definition w0 : @World ext :=
  {| rng := 0;
     script := [(F64.decimal 95 100, F64.decimal 79 100);
                (F64.decimal 80 100, F64.decimal 85 100);
                (F64.decimal 70 100, F64.decimal 90 100)];
     pools := (non_covid_pool, covid_pool) |}.

Definition dl_non_covid : DataLoader := {| dataset := non_covid_pool; batch_size := 7 |}.
Definition dl_covid : DataLoader := {| dataset := covid_pool; batch_size := 3 |}.

Definition meters0 : Meters :=
  {| losses := AverageMeter.init; accuracies := AverageMeter.init |}.

(** The runs the examples below evaluate. *)
Definition loop := train_loop (args "covidnet" 3) dl_non_covid dl_covid F64.zero w0.

Definition run (k : Z) :=
  for_each (train_model_epoch dl_non_covid dl_covid 0) (range k) F64.zero w0.

Definition whole := train_model (args "covidnet" 3) w0.

Definition epoch0 := trainEpoch dl_non_covid dl_covid 0 w0.

End Demo.

(** ** Edge cases on the concrete world *)

Module Edge.
Import Demo.

(** A minority loader whose batch size exceeds its pool of five
    samples. *)
Definition dl_covid_small : DataLoader := {| dataset := covid_pool; batch_size := 8 |}.


(** The loaders for batches of ten samples with a minority fraction of
    0.29. *)
Definition dl_non_covid_8 : DataLoader := {| dataset := non_covid_pool; batch_size := 8 |}.
Definition dl_covid_2 : DataLoader := {| dataset := covid_pool; batch_size := 2 |}.

Definition epoch_029 := trainEpoch dl_non_covid_8 dl_covid_2 0 w0.

(** The loop resumed with a NaN, an epoch on the small pool, and an
    epoch that fails. *)
Definition nan_loop :=
  train_loop (args "covidnet" 3) dl_non_covid dl_covid S754_nan w0.

Definition small_epoch := trainEpoch dl_non_covid dl_covid_small 0 w0.


End Edge.

(** * Properties *)

(** ** Floating point literals and ordering *)

Example lit_080 : F64.decimal 80 100 = S754_finite false 7205759403792794 (-53).
Proof. vm_compute. reflexivity. Qed.

Example lit_03 : F64.decimal 3 10 = S754_finite false 5404319552844595 (-54).
Proof. vm_compute. reflexivity. Qed.

Example lit_029 : F64.decimal 29 100 = S754_finite false 5224175567749775 (-54).
Proof. vm_compute. reflexivity. Qed.

Example mul_10_03 : F64.to_int (F64.mul (F64.of_Z 10) (F64.decimal 3 10)) = Ok 3.
Proof. vm_compute. reflexivity. Qed.

Example mul_10_029 : F64.to_int (F64.mul (F64.of_Z 10) (F64.decimal 29 100)) = Ok 2.
Proof. vm_compute. reflexivity. Qed.

Example mul_100_029 : F64.to_int (F64.mul (F64.of_Z 100) (F64.decimal 29 100)) = Ok 28.
Proof. vm_compute. reflexivity. Qed.

Ltac cmp_cases :=
  repeat match goal with
  | |- context [Pos.compare_cont Eq ?a ?b] =>
      change (Pos.compare_cont Eq a b) with (Pos.compare a b)
  | H : context [Pos.compare_cont Eq ?a ?b] |- _ =>
      change (Pos.compare_cont Eq a b) with (Pos.compare a b) in H
  end;
  repeat match goal with
  | H : context [Z.compare ?a ?b] |- _ => destruct (Z.compare_spec a b); simpl in H
  | H : context [Pos.compare ?a ?b] |- _ => destruct (Pos.compare_spec a b); simpl in H
  | |- context [Z.compare ?a ?b] => destruct (Z.compare_spec a b); simpl
  | |- context [Pos.compare ?a ?b] => destruct (Pos.compare_spec a b); simpl
  end.

Lemma SFltb_trans (a b c : spec_float) :
  SFltb a b = true -> SFltb b c = true -> SFltb a c = true.
Proof.
  unfold SFltb, SFcompare.
  destruct a as [[|]|[|]| |[|] ma ea], b as [[|]|[|]| |[|] mb eb],
           c as [[|]|[|]| |[|] mc ec];
    simpl; intros Hab Hbc; try discriminate; try reflexivity;
    cmp_cases; try discriminate; try reflexivity; subst; lia.
Qed.

Lemma SFltb_asym (a b : spec_float) : SFltb a b = true -> SFltb b a = false.
Proof.
  unfold SFltb, SFcompare.
  destruct a as [[|]|[|]| |[|] ma ea], b as [[|]|[|]| |[|] mb eb];
    simpl; intros Hab; try discriminate; try reflexivity;
    cmp_cases; try discriminate; try reflexivity; subst; lia.
Qed.

Lemma SFltb_leb (a b : spec_float) : SFltb a b = true -> SFleb a b = true.
Proof.
  unfold SFltb, SFleb. destruct (SFcompare a b) as [[| |]|]; intros; congruence.
Qed.

Lemma SFleb_refl (a : spec_float) : F64.is_nan a = false -> SFleb a a = true.
Proof.
  unfold SFleb, SFcompare.
  destruct a as [[|]|[|]| |[|] ma ea]; simpl; intros; try discriminate; try reflexivity;
  rewrite Z.compare_refl; change (Pos.compare_cont Eq ma ma) with (Pos.compare ma ma);
  rewrite Pos.compare_refl; reflexivity.
Qed.

Lemma Ok_inj {A : Type} (a b : A) : Ok a = Ok b -> a = b.
Proof. intros H; inversion H; reflexivity. Qed.

(** ** Computations and loops *)

Section MonadFacts.
Context {X : External} {C : Collaborators}.

Lemma bind_Ok {A B : Type} (m : M A) (f : A -> M B) w b w' t :
  bind m f w = (Ok b, w', t) ->
  exists a w1 t1 t2,
    m w = (Ok a, w1, t1) /\ f a w1 = (Ok b, w', t2) /\ t = t1 ++ t2.
Proof.
  unfold bind. destruct (m w) as [[[a|e] w1] t1]; [|discriminate].
  destruct (f a w1) as [[r w2] t2] eqn:Hf. intros H; inversion H; subst.
  exists a, w1, t1, t2. auto.
Qed.

Lemma call_Ok (ev : Event) w a w' t :
  call ev w = (Ok a, w', t) -> w' = perform ev w /\ t = [ev].
Proof. unfold call. intros H; inversion H; auto. Qed.

Lemma query_Ok {A : Type} (f : World -> A) w a w' t :
  query f w = (Ok a, w', t) -> f w = a /\ w' = w /\ t = [].
Proof. unfold query. intros H; inversion H; auto. Qed.

Lemma ret_Ok {A : Type} (a b : A) w w' t :
  ret a w = (Ok b, w', t) -> a = b /\ w' = w /\ t = [].
Proof. unfold ret. intros H; inversion H; auto. Qed.

Lemma lift_Ok {A : Type} (x : result A) w a w' t :
  lift x w = (Ok a, w', t) -> x = Ok a /\ w' = w /\ t = [].
Proof. unfold lift. intros H; inversion H; auto. Qed.

Lemma bind_assoc {A B D : Type} (m : M A) (f : A -> M B) (g : B -> M D) w :
  bind (bind m f) g w = bind m (fun a => bind (f a) g) w.
Proof.
  unfold bind. destruct (m w) as [[[a|e] w1] t1]; [|reflexivity].
  destruct (f a w1) as [[[b|e] w2] t2]; [|reflexivity].
  destruct (g b w2) as [[r w3] t3]. now rewrite app_assoc.
Qed.

Lemma bind_ext {A B : Type} (m : M A) (f g : A -> M B) w :
  (forall a w1, f a w1 = g a w1) -> bind m f w = bind m g w.
Proof.
  intros E. unfold bind. destruct (m w) as [[[a|e] w1] t1]; [|reflexivity].
  now rewrite E.
Qed.

Lemma bind_ret_l {A B : Type} (a : A) (f : A -> M B) w :
  bind (ret a) f w = f a w.
Proof. unfold bind, ret. destruct (f a w) as [[r w2] t2]. reflexivity. Qed.

Lemma for_each_app {A S : Type} (body : S -> A -> M S) xs ys s w :
  for_each body (xs ++ ys) s w =
  bind (for_each body xs s) (for_each body ys) w.
Proof.
  revert s w. induction xs as [|x xs IH]; intros s w; simpl.
  - now rewrite bind_ret_l.
  - rewrite bind_assoc. apply bind_ext. intros; apply IH.
Qed.

(** A loop that returns has run its body on every element, in order:
    its trace is the concatenation of the traces of the iterations. *)
Lemma for_each_Ok {A S : Type} (body : S -> A -> M S)
    (R : A -> list Event -> Prop) :
  (forall s x w s' w' t, body s x w = (Ok s', w', t) -> R x t) ->
  forall xs s w s' w' t,
    for_each body xs s w = (Ok s', w', t) ->
    exists ts, t = List.concat ts /\ Forall2 R xs ts.
Proof.
  intros Hbody. induction xs as [|x xs IH]; intros s w s' w' t H; simpl in H.
  - inversion H; subst. exists []. split; [reflexivity | constructor].
  - apply bind_Ok in H. destruct H as (s1 & w1 & t1 & t2 & Hb & Hrest & ->).
    apply IH in Hrest. destruct Hrest as (ts & -> & HF).
    exists (t1 :: ts). split; [reflexivity|].
    constructor; [eapply Hbody; eauto | assumption].
Qed.

(** The state in which an iteration of a loop that returns starts. *)
Lemma for_each_split {A S : Type} (body : S -> A -> M S) xs x ys s w sf wf tf :
  for_each body (xs ++ x :: ys) s w = (Ok sf, wf, tf) ->
  exists s1 w1 t1 s2 w2 t2 t3,
    for_each body xs s w = (Ok s1, w1, t1) /\
    body s1 x w1 = (Ok s2, w2, t2) /\
    for_each body ys s2 w2 = (Ok sf, wf, t3) /\
    tf = t1 ++ t2 ++ t3.
Proof.
  rewrite for_each_app. intros H.
  apply bind_Ok in H. destruct H as (s1 & w1 & t1 & t' & H1 & H2 & ->).
  simpl in H2. apply bind_Ok in H2.
  destruct H2 as (s2 & w2 & t2 & t3 & Hb & Hr & ->).
  exists s1, w1, t1, s2, w2, t2, t3. auto.
Qed.

(** The calls of a computation all satisfy a property when those of its
    parts do. *)
(** A loop that returns goes through its items, one state after the
    other. *)
Lemma for_each_chain {A S : Type} (body : S -> A -> M S)
    (R : S -> A -> S -> list Event -> Prop) :
  (forall s x w s' w' t, body s x w = (Ok s', w', t) -> R s x s' t) ->
  forall xs s w sf wf tf,
    for_each body xs s w = (Ok sf, wf, tf) ->
    exists ts, tf = List.concat ts /\ chain R s xs ts sf.
Proof.
  intros HR. induction xs as [|x xs IH]; intros s w sf wf tf H.
  - cbn [for_each] in H. apply ret_Ok in H. destruct H as (-> & _ & ->).
    exists []. split; reflexivity.
  - cbn [for_each] in H. apply bind_Ok in H.
    destruct H as (s1 & w1 & t1 & t2 & H1 & H2 & ->).
    apply IH in H2. destruct H2 as (ts & -> & Hc).
    exists (t1 :: ts). split; [reflexivity|].
    cbn [chain]. exists s1. split; [eapply HR; eassumption | exact Hc].
Qed.

Lemma chain_map {A B S : Type} (f : A -> B) (R : S -> B -> S -> list Event -> Prop)
    (xs : list A) :
  forall s ts sf,
    chain (fun s x => R s (f x)) s xs ts sf -> chain R s (map f xs) ts sf.
Proof.
  induction xs as [|x xs IH]; intros s [|t ts] sf H; cbn [chain map] in *;
    try assumption.
  destruct H as (s' & HR & H). exists s'. split; [exact HR | apply IH, H].
Qed.

Lemma chain_length {A S : Type} (R : S -> A -> S -> list Event -> Prop) (xs : list A) :
  forall s ts sf, chain R s xs ts sf -> List.length xs = List.length ts.
Proof.
  induction xs as [|x xs IH]; intros s [|t ts] sf H; cbn [chain] in H;
    try contradiction; [reflexivity|].
  destruct H as (s' & _ & H). cbn [List.length]. f_equal. eapply IH, H.
Qed.

Lemma emits_ret {A : Type} P (a : A) : emits P (ret a).
Proof. intros w; constructor. Qed.

Lemma emits_raise {A : Type} P e : emits P (@raise _ A e).
Proof. intros w; constructor. Qed.

Lemma emits_lift {A : Type} P (r : result A) : emits P (lift r).
Proof. intros w; constructor. Qed.

Lemma emits_query {A : Type} P (f : World -> A) : emits P (query f).
Proof. intros w; constructor. Qed.

Lemma emits_call P ev : P ev -> emits P (call ev).
Proof. intros H w; simpl. constructor; [assumption | constructor]. Qed.

Lemma emits_bind {A B : Type} P (m : M A) (f : A -> M B) :
  emits P m -> (forall a, emits P (f a)) -> emits P (bind m f).
Proof.
  intros Hm Hf w. unfold bind. specialize (Hm w).
  destruct (m w) as [[[a|e] w1] t1]; simpl in *; [|assumption].
  specialize (Hf a w1). destruct (f a w1) as [[r w2] t2]; simpl in *.
  apply Forall_app; auto.
Qed.

Lemma emits_for_each {A S : Type} P (body : S -> A -> M S) xs :
  (forall s x, emits P (body s x)) -> forall s, emits P (for_each body xs s).
Proof.
  intros Hb. induction xs as [|x xs IH]; intros s; simpl.
  - apply emits_ret.
  - apply emits_bind; auto.
Qed.

End MonadFacts.

Lemma range_length n : List.length (range n) = Z.to_nat n.
Proof. unfold range. now rewrite length_map, length_seq. Qed.

Lemma range_succ e : 0 <= e -> range (e + 1) = range e ++ [e].
Proof.
  intros He. unfold range.
  replace (Z.to_nat (e + 1)) with (S (Z.to_nat e)) by lia.
  rewrite seq_S, map_app. simpl. now rewrite Z2Nat.id.
Qed.

Lemma range_prefix e1 e2 : e1 <= e2 -> exists ys, range e2 = range e1 ++ ys.
Proof.
  intros H. unfold range.
  replace (Z.to_nat e2) with (Z.to_nat e1 + (Z.to_nat e2 - Z.to_nat e1))%nat by lia.
  rewrite seq_app, map_app. eexists; reflexivity.
Qed.

Lemma range_split e n :
  0 <= e < n -> exists ys, range n = range e ++ e :: ys.
Proof.
  intros H. destruct (range_prefix (e + 1) n) as [ys Hys]; [lia|].
  exists ys. rewrite Hys, range_succ by lia. now rewrite <- app_assoc.
Qed.

Ltac emits_step :=
  match goal with
  | |- emits _ (bind _ _) => apply emits_bind; [|intros]
  | |- emits _ (ret _) => apply emits_ret
  | |- emits _ (raise _) => apply emits_raise
  | |- emits _ (lift _) => apply emits_lift
  | |- emits _ (query _) => apply emits_query
  | |- emits _ (call _) => apply emits_call; first [exact I | reflexivity]
  | |- emits _ (for_each _ _ _) => apply emits_for_each; intros
  | |- emits _ (if ?b then _ else _) => destruct b
  | |- emits _ (match ?x with _ => _ end) => destruct x
  end.

Ltac emits_auto := repeat emits_step.

Ltac inv_run :=
  repeat match goal with
  | H : bind _ _ _ = (Ok _, _, _) |- _ =>
      apply bind_Ok in H;
      let a := fresh "a" in let w := fresh "w" in
      let t1 := fresh "t" in let t2 := fresh "t" in
      let H1 := fresh "H" in let H2 := fresh "H" in let E := fresh "E" in
      destruct H as (a & w & t1 & t2 & H1 & H2 & E)
  | H : call _ _ = (Ok _, _, _) |- _ =>
      apply call_Ok in H; destruct H as (? & ?)
  | H : query _ _ = (Ok _, _, _) |- _ =>
      apply query_Ok in H; destruct H as (? & ? & ?)
  | H : ret _ _ = (Ok _, _, _) |- _ =>
      apply ret_Ok in H; destruct H as (? & ? & ?)
  | H : lift _ _ = (Ok _, _, _) |- _ =>
      apply lift_Ok in H; destruct H as (? & ? & ?)
  | H : raise _ _ = (Ok _, _, _) |- _ => discriminate H
  end.

(** ** The checkpoint policy *)

Section PolicyFacts.
Context {X : External} {C : Collaborators}.

Lemma max_of_better (sens best : float) :
  F64.gt sens best = true -> F64.max sens best = sens.
Proof.
  unfold F64.max, F64.gt. intros H. now rewrite (SFltb_asym _ _ H).
Qed.

Lemma checkpoint_policy_run epoch pat best sens acc w :
  checkpoint_policy epoch pat best sens acc w =
  if qualifies best sens acc then
    let w1 := perform (Print BestModelFound) w in
    let ck := checkpoint_of epoch pat sens acc w1 in
    (Ok sens, perform (SaveModel ck) w1, [Print BestModelFound; SaveModel ck])
  else (Ok best, w, []).
Proof.
  unfold checkpoint_policy, qualifies.
  destruct (F64.ge acc min_accuracy); simpl; [|reflexivity].
  destruct (F64.gt sens best) eqn:G; simpl; [|reflexivity].
  rewrite (max_of_better _ _ G). reflexivity.
Qed.

Lemma trainEpoch_emits dl_non_covid dl_covid epoch :
  emits (fun ev => training_event ev = true) (trainEpoch dl_non_covid dl_covid epoch).
Proof. unfold trainEpoch, train_batch, iter, next. emits_auto. Qed.

Lemma saves_app t1 t2 : saves (t1 ++ t2) = saves t1 || saves t2.
Proof. apply existsb_app. Qed.

Lemma training_no_save t :
  Forall (fun ev => training_event ev = true) t -> saves t = false.
Proof.
  induction 1 as [|ev t Hev _ IH]; [reflexivity|].
  simpl. rewrite IH. destruct ev; try discriminate; reflexivity.
Qed.

Lemma training_no_validation t :
  Forall (fun ev => training_event ev = true) t -> validations t = [].
Proof.
  induction 1 as [|ev t Hev _ IH]; [reflexivity|].
  simpl. rewrite IH. destruct ev; try discriminate; reflexivity.
Qed.

(** One iteration of the loop of [train_model] that returns: the
    training epoch, then validation, then the scheduler, then the
    checkpoint policy, then the summary line and the two plots. *)
Lemma train_model_epoch_Ok dl_non_covid dl_covid pat best epoch w b' w' t :
  train_model_epoch dl_non_covid dl_covid pat best epoch w = (Ok b', w', t) ->
  exists w1 t_train sens acc w3 t_ck,
    trainEpoch dl_non_covid dl_covid epoch w = (Ok tt, w1, t_train) /\
    valEpoch_result w1 = (sens, acc) /\
    checkpoint_policy epoch pat best sens acc
      (perform (SchedulerStep acc) (perform (ValEpoch sens acc) w1))
    = (Ok b', w3, t_ck) /\
    t = t_train ++ [ValEpoch sens acc; SchedulerStep acc] ++ t_ck ++
        [Print (ValidationSummary b' acc pat);
         Plot "Sensitivity" "test" "sensitivity covid" epoch sens;
         Plot "Accuracy" "test" "Accuracy" epoch acc].
Proof.
  unfold train_model_epoch, valEpoch, after_validation. intros H.
  apply bind_Ok in H. destruct H as ([] & w1 & t_train & t2 & Htr & H & ->).
  apply bind_Ok in H. destruct H as ([sens acc] & w2 & t3 & t4 & Hv & H & ->).
  inv_run. subst. simpl in *.
  match goal with E : valEpoch_result _ = (sens, acc) |- _ =>
    rewrite E in *; simpl in * end.
  do 6 eexists. split; [eassumption|]. split; [eassumption|].
  split; [eassumption|]. reflexivity.
Qed.

Lemma qualifies_true best sens acc :
  qualifies best sens acc = true <->
  F64.ge acc min_accuracy = true /\ F64.gt sens best = true.
Proof. unfold qualifies. apply andb_true_iff. Qed.

(** What one iteration that returns does about the checkpoint. *)
Lemma train_model_epoch_policy dl_non_covid dl_covid pat best epoch w b' w' t :
  train_model_epoch dl_non_covid dl_covid pat best epoch w = (Ok b', w', t) ->
  exists sens acc,
    validations t = [(sens, acc)] /\
    saves t = qualifies best sens acc /\
    b' = (if qualifies best sens acc then sens else best).
Proof.
  intros H. apply train_model_epoch_Ok in H.
  destruct H as (w1 & t_train & sens & acc & w3 & t_ck & Htr & Hv & Hck & ->).
  pose proof (trainEpoch_emits dl_non_covid dl_covid epoch w) as Hem.
  rewrite Htr in Hem. simpl in Hem.
  exists sens, acc.
  rewrite checkpoint_policy_run in Hck.
  unfold validations, saves in *.
  rewrite flat_map_app, existsb_app.
  fold (validations t_train). fold (saves t_train).
  rewrite (training_no_validation _ Hem), (training_no_save _ Hem).
  destruct (qualifies best sens acc); inversion Hck; subst; simpl; auto.
Qed.

(** C1.  In a run of the loop of [train_model] that returns, every epoch
    [e] starts in a state reached by the [e] epochs before it, makes one
    validation pass, and saves a checkpoint if and only if the accuracy of
    that pass is at least [0.80] and its covid sensitivity is strictly
    greater than the value [best_sensit] had when the epoch started; when
    no checkpoint is saved, [best_sensit] is unchanged. *)
Theorem checkpoint_iff_qualifying_epoch
    (args_dict : Args) (dl_non_covid dl_covid : DataLoader)
    (best0 : float) (w0 : World) bf wf tf :
  train_loop args_dict dl_non_covid dl_covid best0 w0 = (Ok bf, wf, tf) ->
  forall e, 0 <= e < epochs args_dict ->
  exists b_e w_e t_pre b_e' w_e' t_e t_post sens acc,
    for_each (train_model_epoch dl_non_covid dl_covid 0) (range e) best0 w0
      = (Ok b_e, w_e, t_pre) /\
    train_model_epoch dl_non_covid dl_covid 0 b_e e w_e = (Ok b_e', w_e', t_e) /\
    tf = t_pre ++ t_e ++ t_post /\
    validations t_e = [(sens, acc)] /\
    (saves t_e = true <->
     F64.ge acc min_accuracy = true /\ F64.gt sens b_e = true) /\
    (saves t_e = false -> b_e' = b_e).
Proof.
  unfold train_loop. intros Hrun e He.
  destruct (range_split e (epochs args_dict) He) as [ys Hys].
  rewrite Hys in Hrun. apply for_each_split in Hrun.
  destruct Hrun as (b_e & w_e & t_pre & b_e' & w_e' & t_e & t_post & Hpre & Hbody & _ & ->).
  destruct (train_model_epoch_policy _ _ _ _ _ _ _ _ _ Hbody)
    as (sens & acc & Hval & Hsave & Hbest).
  exists b_e, w_e, t_pre, b_e', w_e', t_e, t_post, sens, acc.
  do 4 (split; [first [assumption | reflexivity]|]).
  rewrite Hsave. split; [apply qualifies_true|].
  intros Q. now rewrite Q in Hbest.
Qed.

Lemma not_below_trans a b c : not_below a b -> not_below b c -> not_below a c.
Proof.
  unfold not_below, F64.gt. intros [->|H1] [->|H2]; auto.
  right. eapply SFltb_trans; eauto.
Qed.

Lemma not_below_ge b1 b2 :
  not_below b1 b2 -> F64.is_nan b1 = false -> F64.ge b2 b1 = true.
Proof.
  unfold not_below, F64.ge, F64.gt. intros [->|H] Hn.
  - now apply SFleb_refl.
  - now apply SFltb_leb.
Qed.

Lemma train_model_epochs_monotone dl_non_covid dl_covid pat xs :
  forall best w b' w' t,
    for_each (train_model_epoch dl_non_covid dl_covid pat) xs best w = (Ok b', w', t) ->
    not_below best b'.
Proof.
  induction xs as [|x xs IH]; intros best w b' w' t H; simpl in H.
  - inversion H; subst. now left.
  - apply bind_Ok in H. destruct H as (b1 & w1 & t1 & t2 & Hb & Hr & ->).
    apply IH in Hr. eapply not_below_trans; [|exact Hr].
    destruct (train_model_epoch_policy _ _ _ _ _ _ _ _ _ Hb)
      as (sens & acc & _ & _ & ->).
    destruct (qualifies best sens acc) eqn:Q; [|now left].
    right. apply qualifies_true in Q. exact (proj2 Q).
Qed.

(** C2.  Across a run, [best_sensit] never decreases: its value after
    [e2] epochs is the value after [e1 <= e2] epochs or a strictly greater
    one (so it is [>=] in the comparison of the interpreter, a NaN resumed
    from a checkpoint apart).  It changes only in an epoch whose accuracy
    is at least [0.80] and whose sensitivity strictly exceeds the tracked
    value, and then it becomes that sensitivity. *)
Theorem best_sensit_non_decreasing
    (dl_non_covid dl_covid : DataLoader) (best0 : float) (w0 : World) :
  let run k := for_each (train_model_epoch dl_non_covid dl_covid 0) (range k) best0 w0 in
  (forall e1 e2 b1 w1 t1 b2 w2 t2,
      0 <= e1 <= e2 ->
      run e1 = (Ok b1, w1, t1) -> run e2 = (Ok b2, w2, t2) ->
      (b2 = b1 \/ F64.gt b2 b1 = true) /\
      (F64.is_nan b1 = false -> F64.ge b2 b1 = true)) /\
  (forall e b w t b' w' t',
      0 <= e ->
      run e = (Ok b, w, t) -> run (e + 1) = (Ok b', w', t') ->
      exists t_e sens acc,
        t' = t ++ t_e /\ validations t_e = [(sens, acc)] /\
        (b' <> b -> F64.ge acc min_accuracy = true /\ F64.gt sens b = true) /\
        (F64.ge acc min_accuracy = true -> F64.gt sens b = true -> b' = sens)).
Proof.
  intros run. split.
  - intros e1 e2 b1 w1 t1 b2 w2 t2 He H1 H2. unfold run in *.
    destruct (range_prefix e1 e2) as [ys Hys]; [lia|].
    rewrite Hys, for_each_app in H2.
    apply bind_Ok in H2. destruct H2 as (b & w & t & t' & H1' & H2 & ->).
    rewrite H1 in H1'. inversion H1'; subst.
    apply train_model_epochs_monotone in H2.
    split; [exact H2 | now apply not_below_ge].
  - intros e b w t b' w' t' He H1 H2. unfold run in *.
    rewrite range_succ, for_each_app in H2 by assumption.
    apply bind_Ok in H2. destruct H2 as (b1 & w1 & t1 & t2 & H1' & H2 & ->).
    rewrite H1 in H1'. inversion H1'; subst. simpl in H2.
    apply bind_Ok in H2. destruct H2 as (b2 & w2 & t_e & t3 & Hb & Hr & ->).
    inversion Hr; subst. rewrite app_nil_r.
    destruct (train_model_epoch_policy _ _ _ _ _ _ _ _ _ Hb)
      as (sens & acc & Hval & _ & Hbest).
    exists t_e, sens, acc.
    split; [reflexivity|]. split; [exact Hval|].
    destruct (qualifies b1 sens acc) eqn:Q.
    + apply qualifies_true in Q. split; [intros _; exact Q | intros _ _; exact Hbest].
    + split; [intros Hne; contradiction | ].
      intros Ha Hs. assert (Q' : qualifies b1 sens acc = true)
        by (apply qualifies_true; split; assumption).
      rewrite Q in Q'. discriminate Q'.
Qed.

End PolicyFacts.

(** ** The orchestrator *)

Section Orchestrator.
Context {X : External} {C : Collaborators}.

Lemma calculateDataLoaderTrain_emits args_dict :
  emits (fun ev => setup_event ev = true) (calculateDataLoaderTrain args_dict).
Proof. unfold calculateDataLoaderTrain. emits_auto. Qed.

Lemma train_loop_trace args_dict dl_non_covid dl_covid best0 w0 bf wf tf :
  train_loop args_dict dl_non_covid dl_covid best0 w0 = (Ok bf, wf, tf) ->
  exists ts,
    tf = List.concat ts /\
    Forall2 (epoch_trace dl_non_covid dl_covid) (range (epochs args_dict)) ts.
Proof.
  unfold train_loop. apply for_each_Ok.
  intros s e w s' w' t H. apply train_model_epoch_Ok in H.
  destruct H as (w1 & t_train & sens & acc & w3 & t_ck & Htr & Hv & Hck & ->).
  exists w, w1, t_train, sens, acc, t_ck, s'.
  split; [assumption|]. split.
  { pose proof (trainEpoch_emits dl_non_covid dl_covid e w) as Hem.
    now rewrite Htr in Hem. }
  split; [assumption|]. split; [|reflexivity].
  rewrite checkpoint_policy_run in Hck.
  destruct (qualifies s sens acc); inversion Hck; subst; eauto.
Qed.

(** C6.  A run of [train_model] that returns makes the calls of its set-up
    and then, for each of the [epochs] epochs of [range(epochs)] and in
    this order: all the calls of the training epoch, the validation pass,
    the step of the scheduler on the accuracy that validation returned,
    the calls of the checkpoint policy (none, or the message and the
    save), the summary line and the two plots of the validation
    metrics. *)
Theorem epochs_run_in_sequence (args_dict : Args) (w0 : World) wf tf :
  train_model args_dict w0 = (Ok tt, wf, tf) ->
  exists t_setup dl_non_covid dl_covid ts,
    tf = t_setup ++ List.concat ts /\
    Forall (fun ev => setup_event ev = true) t_setup /\
    List.length ts = Z.to_nat (epochs args_dict) /\
    Forall2 (epoch_trace dl_non_covid dl_covid) (range (epochs args_dict)) ts.
Proof.
  intros H.
  pose proof H as H0. unfold train_model in H0.
  apply bind_Ok in H0. destruct H0 as (mv & w1 & t1 & t2 & Hm & H0 & ->).
  assert (Hs1 : Forall (fun ev => setup_event ev = true) t1).
  { assert (E : emits (fun ev => setup_event ev = true)
                  (if String.eqb (model args_dict) "covidnet"
                   then bind (call (NewCovidNet (n_classes args_dict)))
                             (fun _ => ret (Some CovidNet))
                   else if String.eqb (model args_dict) "resnet"
                   then bind (call (NewResNet (n_classes args_dict)))
                             (fun _ => ret (Some ResNet))
                   else ret None)) by emits_auto.
    specialize (E w0). now rewrite Hm in E. }
  inv_run. subst.
  match goal with
  | Hc : calculateDataLoaderTrain _ ?w = (Ok ?p, _, ?t) |- _ =>
      pose proof (calculateDataLoaderTrain_emits args_dict w) as Hem;
      rewrite Hc in Hem; simpl in Hem; destruct p as [dl_non_covid dl_covid]
  end.
  inv_run. subst.
  match goal with
  | Hl : local _ _ _ = _ |- _ =>
      unfold local in Hl; destruct mv; [|discriminate Hl];
      unfold ret in Hl; inversion Hl; subst; clear Hl
  end.
  match goal with
  | Hl : train_loop _ _ _ _ _ = _ |- _ =>
      apply train_loop_trace in Hl; destruct Hl as (ts & -> & HF)
  end.
  match goal with
  | |- exists _ _ _ _,
      ?a ++ ?b ++ ?c ++ ?d ++ ?e ++ ?f ++ ?g ++ ?h ++ ?i ++ ?j ++ ?k ++ ?l ++ _ ++ [] = _ /\ _ =>
      exists (a ++ b ++ c ++ d ++ e ++ f ++ g ++ h ++ i ++ j ++ k ++ l),
        dl_non_covid, dl_covid, ts
  end.
  split.
  { repeat first [rewrite <- app_assoc | rewrite app_nil_r | progress cbn [app]].
    reflexivity. }
  split.
  { apply Forall_app. split; [assumption|]. simpl.
    repeat (constructor; [reflexivity|]).
    apply Forall_app. split; [assumption | repeat constructor]. }
  split; [|assumption].
  rewrite <- (Forall2_length HF). apply range_length.
Qed.

(** C7, as the code has it.  With a model tag other than ["covidnet"] and
    ["resnet"], [train_model] builds no model, prints the line
    [model selected: <tag>], and fails on the read of the unbound local
    variable [model]: nothing else is called, so no optimizer or loader is
    built and no training or validation takes place. *)
Theorem unknown_model_fails_on_unbound_variable (args_dict : Args) (w : World) :
  model args_dict <> "covidnet" ->
  model args_dict <> "resnet" ->
  train_model args_dict w =
    (Raise (UnboundLocalError "model"),
     perform (Print (ModelSelected (model args_dict))) w,
     [Print (ModelSelected (model args_dict))]).
Proof.
  intros H1 H2. unfold train_model.
  apply String.eqb_neq in H1. apply String.eqb_neq in H2.
  rewrite H1, H2. reflexivity.
Qed.

(** C8, as the code has it.  What an epoch does after validation never
    raises, whatever the metrics are: the scheduler is stepped on the
    accuracy, and a sensitivity strictly above [best_sensit] with an
    accuracy of at least [0.80] becomes the new [best_sensit] and is saved
    in a checkpoint; no range is checked. *)
Theorem validation_metrics_never_rejected
    (epoch pat_track : Z) (best_sensit sensitivity_covid accuracy : float) (w : World) :
  exists b' w' t,
    after_validation epoch pat_track best_sensit sensitivity_covid accuracy w
      = (Ok b', w', t) /\
    In (SchedulerStep accuracy) t /\
    b' = (if qualifies best_sensit sensitivity_covid accuracy
          then sensitivity_covid else best_sensit) /\
    saves t = qualifies best_sensit sensitivity_covid accuracy /\
    (qualifies best_sensit sensitivity_covid accuracy = true ->
     exists c, In (SaveModel c) t /\ ckpt_best_sensit c = sensitivity_covid).
Proof.
  unfold after_validation.
  unfold bind at 1. cbn [call].
  unfold bind at 1. rewrite checkpoint_policy_run.
  destruct (qualifies best_sensit sensitivity_covid accuracy); cbn.
  - do 3 eexists. split; [reflexivity|]. split; [now left|].
    split; [reflexivity|]. split; [reflexivity|].
    intros _. eexists. split; [right; right; left; reflexivity | reflexivity].
  - do 3 eexists. split; [reflexivity|]. split; [now left|].
    split; [reflexivity|]. split; [reflexivity|]. discriminate.
Qed.

Lemma emits_weaken {A : Type} (P Q : Event -> Prop) (m : M A) :
  (forall ev, P ev -> Q ev) -> emits P m -> emits Q m.
Proof. intros HPQ Hm w. eapply Forall_impl; [exact HPQ | apply Hm]. Qed.

Lemma training_event_patience_zero ev :
  training_event ev = true -> patience_zero ev.
Proof. destruct ev as [[]| | | | | | | | | | | | | | | | | | | |]; simpl; discriminate || trivial. Qed.

Lemma setup_event_patience_zero ev :
  setup_event ev = true -> patience_zero ev.
Proof. destruct ev as [[]| | | | | | | | | | | | | | | | | | | |]; simpl; discriminate || trivial. Qed.

Lemma train_model_epoch_emits_patience_zero dl_non_covid dl_covid best epoch :
  emits patience_zero (train_model_epoch dl_non_covid dl_covid 0 best epoch).
Proof.
  unfold train_model_epoch. apply emits_bind.
  - eapply emits_weaken; [apply training_event_patience_zero | apply trainEpoch_emits].
  - intros _. unfold valEpoch, after_validation, checkpoint_policy.
    emits_auto.
Qed.

Lemma train_model_emits_patience_zero args_dict :
  emits patience_zero (train_model args_dict).
Proof.
  unfold train_model.
  apply emits_bind.
  { eapply emits_weaken; [apply setup_event_patience_zero|]. emits_auto. }
  intros mv. apply emits_bind; [apply emits_call; exact I|]. intros _.
  apply emits_bind; [destruct mv; [apply emits_ret | apply emits_raise]|]. intros _.
  do 3 (apply emits_bind; [apply emits_call; exact I|]; intros _).
  apply emits_bind; [apply emits_query|]. intros best.
  do 2 (apply emits_bind; [apply emits_call; exact I|]; intros _).
  apply emits_bind.
  { eapply emits_weaken; [apply setup_event_patience_zero|].
    apply calculateDataLoaderTrain_emits. }
  intros [dl_non_covid dl_covid].
  do 2 (apply emits_bind; [apply emits_call; exact I|]; intros _).
  apply emits_bind; [|intros; apply emits_ret].
  unfold train_loop. apply emits_for_each. intros.
  apply train_model_epoch_emits_patience_zero.
Qed.

(** C10.  Every checkpoint saved by [train_model] stores [valtrack = 0] and
    every summary line shows a patience of [0]; and the patience counter
    decides nothing: with any two values of it, what an epoch does after
    validation gives the same [best_sensit] and makes the same calls, the
    stored or printed counter apart. *)
Theorem patience_counter_stays_zero :
  (forall args_dict w,
      Forall patience_zero (snd (train_model args_dict w))) /\
  (forall epoch p1 p2 best sens acc w,
      fst (fst (after_validation epoch p1 best sens acc w)) =
      fst (fst (after_validation epoch p2 best sens acc w)) /\
      map erase_patience (snd (after_validation epoch p1 best sens acc w)) =
      map erase_patience (snd (after_validation epoch p2 best sens acc w))).
Proof.
  split.
  - intros args_dict w. apply train_model_emits_patience_zero.
  - intros epoch p1 p2 best sens acc w.
    unfold after_validation, bind, call.
    rewrite !checkpoint_policy_run.
    destruct (qualifies best sens acc); cbn; split; reflexivity.
Qed.

End Orchestrator.

(** ** The batch sampler *)

Section SamplerFacts.
Context {A : Type}.

Lemma len_app (l1 l2 : list A) : len (l1 ++ l2) = len l1 + len l2.
Proof. unfold len. rewrite length_app. lia. Qed.

Lemma len_nonneg (l : list A) : 0 <= len l.
Proof. unfold len. lia. Qed.

(** The first batch of the sampler is the prefix of the permutation. *)
Lemma batch_sampler_head (bs : nat) (l cur : list A) :
  (List.length cur < bs)%nat -> cur ++ l <> [] ->
  exists rest, batch_sampler bs cur l = firstn bs (cur ++ l) :: rest.
Proof.
  revert cur. induction l as [|idx l IH]; intros cur Hlt Hne.
  - rewrite app_nil_r in *. simpl.
    destruct cur as [|c cur]; [contradiction|].
    exists []. now rewrite firstn_all2 by lia.
  - simpl. destruct (Nat.eqb_spec (List.length (cur ++ [idx])) bs) as [E|E].
    + eexists. f_equal.
      replace (cur ++ idx :: l) with ((cur ++ [idx]) ++ l)
        by (now rewrite <- app_assoc).
      rewrite firstn_app, E, Nat.sub_diag. simpl.
      now rewrite app_nil_r, <- E, firstn_all.
    + replace (cur ++ idx :: l) with ((cur ++ [idx]) ++ l)
        by (now rewrite <- app_assoc).
      apply IH.
      * rewrite length_app in *. simpl in *. lia.
      * destruct cur; discriminate.
Qed.

(** The sizes of the batches: full batches, then what is left. *)
Lemma batch_sampler_sizes (bs : nat) (l cur : list A) :
  (List.length cur < bs)%nat ->
  let total := len cur + len l in
  map len (batch_sampler bs cur l) =
  repeat (Z.of_nat bs) (Z.to_nat (total / Z.of_nat bs)) ++
  (if total mod Z.of_nat bs =? 0 then [] else [total mod Z.of_nat bs]).
Proof.
  revert cur. induction l as [|idx l IH]; intros cur Hlt total; subst total.
  - change (len (@nil A)) with 0. rewrite Z.add_0_r.
    assert (Hc : 0 <= len cur < Z.of_nat bs) by (unfold len; lia).
    rewrite Z.div_small, Z.mod_small by assumption. simpl.
    destruct cur as [|c cur]; [reflexivity|].
    destruct (Z.eqb_spec (len (c :: cur)) 0) as [E|E]; [unfold len in E; cbn [List.length] in E; lia|].
    reflexivity.
  - simpl batch_sampler.
    assert (Hlen : len (cur ++ [idx]) = len cur + 1) by (rewrite len_app; reflexivity).
    assert (Hcons : len (idx :: l) = 1 + len l) by (unfold len; cbn [List.length]; lia).
    destruct (Nat.eqb_spec (List.length (cur ++ [idx])) bs) as [E|E].
    + assert (Hbs : Z.of_nat bs = len cur + 1) by (rewrite <- E, <- Hlen; reflexivity).
      simpl map. rewrite (IH [] ltac:(simpl; lia)).
      change (len (@nil A)) with 0. rewrite Z.add_0_l.
      replace (len cur + len (idx :: l)) with (len l + 1 * Z.of_nat bs) by lia.
      pose proof (len_nonneg l). pose proof (len_nonneg cur).
      rewrite Z.div_add, Z.mod_add by lia.
      assert (0 <= len l / Z.of_nat bs) by (apply Z.div_pos; lia).
      replace (Z.to_nat (len l / Z.of_nat bs + 1))
        with (S (Z.to_nat (len l / Z.of_nat bs))) by lia.
      simpl. f_equal. unfold len. lia.
    + rewrite IH.
      * rewrite Hlen, Hcons. now replace (len cur + 1 + len l) with (len cur + (1 + len l)) by lia.
      * rewrite length_app in *. simpl in *. lia.
Qed.

Lemma map_snd_enumerate (l : list A) : map snd (enumerate l) = l.
Proof.
  unfold enumerate. generalize (range (len l)), (range_length (len l)).
  unfold len. rewrite Nat2Z.id. intros r Hr.
  revert r Hr. induction l as [|a l IH]; intros [|z r] Hr; simpl in *; try discriminate.
  - reflexivity.
  - f_equal. apply IH. lia.
Qed.

End SamplerFacts.

Section BatchFacts.
Context {A : Type}.

(** The batches of the sampler, put end to end, are the permutation. *)
Lemma batch_sampler_concat (bs : nat) (l cur : list A) :
  List.concat (batch_sampler bs cur l) = cur ++ l.
Proof.
  revert cur. induction l as [|idx l IH]; intros cur.
  - cbn [batch_sampler]. destruct cur; cbn; now rewrite ?app_nil_r.
  - cbn [batch_sampler].
    destruct (Nat.eqb (List.length (cur ++ [idx])) bs).
    + cbn [List.concat]. rewrite IH. cbn [app]. now rewrite <- app_assoc.
    + rewrite IH. now rewrite <- app_assoc.
Qed.

(** The number of batches is the length of the loader. *)
Lemma batch_sampler_count (bs : Z) (l : list A) :
  1 <= bs ->
  len (batch_sampler (Z.to_nat bs) [] l) = (len l + bs - 1) / bs.
Proof.
  intros Hbs.
  assert (E : len (batch_sampler (Z.to_nat bs) [] l)
              = len (map len (batch_sampler (Z.to_nat bs) [] l)))
    by (unfold len; now rewrite length_map).
  rewrite E, batch_sampler_sizes by (cbn [List.length]; lia).
  change (len (@nil A)) with 0. rewrite Z.add_0_l, Z2Nat.id by lia.
  pose proof (len_nonneg l) as Hn.
  pose proof (Z.div_mod (len l) bs ltac:(lia)) as Hdm.
  pose proof (Z.mod_pos_bound (len l) bs ltac:(lia)) as Hr.
  assert (Hq : 0 <= len l / bs) by (apply Z.div_pos; lia).
  revert Hdm Hr Hq. generalize (len l / bs) (len l mod bs). intros q r Hdm Hr Hq.
  rewrite len_app. unfold len at 1. rewrite repeat_length, Z2Nat.id by assumption.
  destruct (Z.eqb_spec r 0) as [E0|E0].
  - change (len (@nil Z)) with 0.
    apply (Z.div_unique _ _ _ (bs - 1)); lia.
  - change (len [r]) with 1.
    apply (Z.div_unique _ _ _ (r - 1)); lia.
Qed.

Lemma map_fst_enumerate (l : list A) : map fst (enumerate l) = range (len l).
Proof.
  unfold enumerate. generalize (range (len l)), (range_length (len l)).
  unfold len. rewrite Nat2Z.id. intros r Hr.
  revert r Hr. induction l as [|a l IH]; intros [|z r] Hr; cbn in *; try discriminate.
  - reflexivity.
  - f_equal. apply IH. lia.
Qed.

End BatchFacts.

(** [int(f)] is the integer part of [f = (-1)^s * m * 2^e]. *)
Lemma to_int_truncates (s : bool) (m : positive) (e z : Z) :
  F64.to_int (S754_finite s m e) = Ok z ->
  z = cond_Zopp s (Z.abs z) /\
  (0 <= e -> Z.abs z = Z.pos m * 2 ^ e) /\
  (e < 0 -> Z.abs z * 2 ^ (- e) <= Z.pos m < (Z.abs z + 1) * 2 ^ (- e)).
Proof.
  unfold F64.to_int. intros H. apply Ok_inj in H. subst z.
  unfold F64.trunc_mag.
  destruct (Z.leb_spec 0 e) as [He|He].
  - assert (0 < 2 ^ e) by (apply Z.pow_pos_nonneg; lia).
    assert (Hv : 0 <= Z.pos m * 2 ^ e) by nia.
    revert Hv. generalize (Z.pos m * 2 ^ e). intros v Hv.
    destruct s; cbn [cond_Zopp]; (split; [|split]); intros; lia.
  - assert (Hd : 0 < 2 ^ (- e)) by (apply Z.pow_pos_nonneg; lia).
    pose proof (Z.div_pos (Z.pos m) (2 ^ (- e)) ltac:(lia) Hd) as Hq.
    pose proof (Z.mul_div_le (Z.pos m) (2 ^ (- e)) Hd) as Hle.
    pose proof (Z.mul_succ_div_gt (Z.pos m) (2 ^ (- e)) Hd) as Hgt.
    revert Hq Hle Hgt. generalize (Z.pos m / 2 ^ (- e)). intros q Hq Hle Hgt.
    assert (Ha : Z.abs (cond_Zopp s q) = q) by (destruct s; cbn [cond_Zopp]; lia).
    rewrite Ha. split; [destruct s; cbn [cond_Zopp]; lia|]. split; [lia|]. intros _. lia.
Qed.

(** ** The loaders and the training epoch *)

Section Loaders.
Context {X : External} {C : Collaborators}.

Lemma len_zero {A : Type} (l : list A) : len l = 0 <-> l = [].
Proof.
  unfold len. destruct l; cbn [List.length]; split; intros H;
    try reflexivity; try discriminate H; lia.
Qed.

Lemma new_DataLoader_Ok ds bs dl :
  new_DataLoader ds bs = Ok dl <->
  ds <> [] /\ 1 <= bs /\ dl = {| dataset := ds; batch_size := bs |}.
Proof.
  unfold new_DataLoader.
  destruct (Z.eqb_spec (len ds) 0) as [E|E].
  - apply len_zero in E. split; [discriminate | intros [? _]; contradiction].
  - assert (ds <> []) by (intros ->; apply E; reflexivity).
    destruct (Z.leb_spec bs 0); split.
    + discriminate.
    + intros (_ & ? & _); lia.
    + intros E'; inversion E'; repeat split; [assumption | lia].
    + intros (_ & _ & ->); reflexivity.
Qed.

(** One training step that returns. *)
Lemma train_batch_Ok dl_non_covid dl_covid epoch meters batch_idx batch_nc w m' w' t :
  train_batch dl_non_covid dl_covid epoch meters (batch_idx, batch_nc) w = (Ok m', w', t) ->
  let perm := randperm w (dataset dl_covid) in
  exists batch_c rest out loss x0 acc pct,
    batch_sampler (Z.to_nat (batch_size dl_covid)) [] perm = batch_c :: rest /\
    nth_error (map image batch_nc ++ map image batch_c) 0 = Some x0 /\
    losses m' = AverageMeter.update (losses meters) loss (len x0) /\
    accuracies m' = AverageMeter.update (accuracies meters) acc (len x0) /\
    t = [RandomSampler perm;
         ModelCall (map image batch_nc ++ map image batch_c) out;
         Criterion out (map target batch_nc ++ map target batch_c) loss;
         ZeroGrad; Backward; OptimizerStep;
         (Print (TrainProgress epoch batch_idx (len_DataLoader dl_non_covid) pct
                  (AverageMeter.val (losses m')) (AverageMeter.avg (losses m'))
                  (AverageMeter.val (accuracies m')) (AverageMeter.avg (accuracies m'))))].
Proof.
  intros H perm. unfold train_batch, iter, torch_cat in H.
  inv_run. subst. subst perm.
  match goal with
  | Hn : next ?it _ = _ |- _ =>
      unfold next in Hn; destruct it as [|b r] eqn:Hbs; [discriminate Hn|];
      unfold ret in Hn; inversion Hn; subst; clear Hn
  end.
  inv_run. subst.
  match goal with
  | Hg : getitem ?x 0 = Ok ?x0 |- _ =>
      unfold getitem in Hg; destruct (nth_error x 0) as [x0'|] eqn:Hx0;
      [inversion Hg; subst; clear Hg | discriminate Hg]
  end.
  do 7 eexists. split; [reflexivity|]. split; [exact Hx0|].
  split; [reflexivity|]. split; reflexivity.
Qed.

(** One training step that returns, with the values it computes. *)
Lemma train_batch_step dl_non_covid dl_covid epoch meters batch_idx batch_nc w m' w' t :
  train_batch dl_non_covid dl_covid epoch meters (batch_idx, batch_nc) w = (Ok m', w', t) ->
  step_trace epoch (len_DataLoader dl_non_covid) meters batch_idx m' t.
Proof.
  intros H. unfold train_batch, iter, torch_cat in H.
  inv_run. subst.
  match goal with
  | Hn : next ?it _ = _ |- _ =>
      unfold next in Hn; destruct it as [|b r] eqn:Hbs; [discriminate Hn|];
      unfold ret in Hn; inversion Hn; subst; clear Hn
  end.
  inv_run. subst.
  unfold step_trace. do 8 eexists.
  split; [eassumption|]. split; [eassumption|]. split; [eassumption|].
  split; [reflexivity|]. split; reflexivity.
Qed.

Lemma covid_size_Ok args_dict cs :
  covid_size args_dict = Ok cs <->
  exists b n,
    F64.of_int (batch args_dict) = Ok b /\
    F64.to_int (F64.mul b (covid_percent args_dict)) = Ok n /\
    cs = Z.max n 1.
Proof.
  unfold covid_size, and_then. split.
  - destruct (F64.of_int (batch args_dict)) as [b|]; [|discriminate].
    destruct (F64.to_int (F64.mul b (covid_percent args_dict))) as [n|] eqn:Hn;
      [|discriminate].
    intros H. apply Ok_inj in H. exists b, n.
    split; [reflexivity|]. split; [exact Hn | symmetry; exact H].
  - intros (b & n & -> & -> & ->). reflexivity.
Qed.

Lemma calculateDataLoaderTrain_Ok args_dict w dl_non_covid dl_covid w' t :
  calculateDataLoaderTrain args_dict w = (Ok (dl_non_covid, dl_covid), w', t) <->
  exists cs,
    covid_size args_dict = Ok cs /\ 1 <= batch args_dict - cs /\
    let ev := PreprocessSplit (train_txt args_dict) (train_folder args_dict) in
    let ds := train_datasets (perform ev w) (train_txt args_dict) (train_folder args_dict) in
    dl_non_covid = {| dataset := fst ds; batch_size := batch args_dict - cs |} /\
    dl_covid = {| dataset := snd ds; batch_size := cs |} /\
    w' = perform ev w /\ t = [ev] /\ fst ds <> [] /\ snd ds <> [].
Proof.
  unfold calculateDataLoaderTrain. split.
  - intros H. inv_run.
    match goal with
    | Hq : train_datasets _ _ _ = ?p |- _ => destruct p as [nc c]
    end.
    inv_run.
    repeat match goal with
    | Hn : new_DataLoader _ _ = Ok _ |- _ =>
        apply new_DataLoader_Ok in Hn; destruct Hn as (? & ? & ?)
    | Hp : (_, _) = (_, _) |- _ => inversion Hp; clear Hp
    end.
    subst. eexists. split; [eassumption|]. split; [assumption|].
    cbn zeta.
    match goal with
    | Hq : train_datasets _ _ _ = _ |- _ => rewrite Hq
    end.
    repeat split; try reflexivity; assumption.
  - intros (cs & Hcs & Hnc & Hrest). cbn zeta in Hrest.
    destruct Hrest as (-> & -> & -> & -> & Hne1 & Hne2).
    assert (1 <= cs).
    { apply covid_size_Ok in Hcs. destruct Hcs as (b & n & _ & _ & ->). lia. }
    unfold bind, call, query, lift, ret.
    destruct (train_datasets _ _ _) as [nc c]. rewrite Hcs. cbn [fst snd] in *.
    unfold new_DataLoader.
    destruct (Z.eqb_spec (len nc) 0) as [E|_]; [apply len_zero in E; contradiction|].
    destruct (Z.leb_spec (batch args_dict - cs) 0); [lia|].
    destruct (Z.eqb_spec (len c) 0) as [E|_]; [apply len_zero in E; contradiction|].
    destruct (Z.leb_spec cs 0); [lia|]. reflexivity.
Qed.

(** A training epoch that returns. *)
Lemma trainEpoch_Ok dl_non_covid dl_covid epoch w w' t :
  trainEpoch dl_non_covid dl_covid epoch w = (Ok tt, w', t) ->
  let perm0 := randperm (perform ModelTrain w) (dataset dl_non_covid) in
  let batches := batch_sampler (Z.to_nat (batch_size dl_non_covid)) [] perm0 in
  exists meters w1 t_loop,
    for_each (train_batch dl_non_covid dl_covid epoch) (enumerate batches)
      {| losses := AverageMeter.init; accuracies := AverageMeter.init |}
      (perform (RandomSampler perm0) (perform ModelTrain w))
    = (Ok meters, w1, t_loop) /\
    t = ModelTrain :: RandomSampler perm0 :: t_loop ++
        [Plot "loss" "train" "Cross Entropy Loss" epoch (AverageMeter.avg (losses meters));
         Plot "Acc" "train" "Accuracy" epoch (AverageMeter.avg (accuracies meters))].
Proof.
  intros H perm0 batches. unfold trainEpoch, iter in H.
  inv_run. subst. subst batches perm0.
  do 3 eexists. split; [eassumption|].
  repeat first [rewrite <- app_assoc | rewrite app_nil_r | progress cbn [app]].
  reflexivity.
Qed.

Lemma batch_sizes_app t1 t2 : batch_sizes (t1 ++ t2) = batch_sizes t1 ++ batch_sizes t2.
Proof. apply flat_map_app. Qed.

Lemma batch_sizes_concat {A : Type} (g : A -> Z) xs ts :
  Forall2 (fun x t => batch_sizes t = [g x]) xs ts ->
  batch_sizes (List.concat ts) = map g xs.
Proof.
  induction 1 as [|x t xs ts Hx _ IH]; [reflexivity|].
  simpl. now rewrite batch_sizes_app, Hx, IH.
Qed.

(** The minority batch of a step is the prefix of the new permutation. *)
Lemma minority_batch_is_prefix (dl_covid : DataLoader)
    (perm batch_c : list Sample) (rest : list (list Sample)) :
  1 <= batch_size dl_covid ->
  batch_sampler (Z.to_nat (batch_size dl_covid)) [] perm = batch_c :: rest ->
  batch_c = firstn (Z.to_nat (batch_size dl_covid)) perm.
Proof.
  intros Hbs H.
  destruct perm as [|s perm]; [discriminate H|].
  destruct (batch_sampler_head (Z.to_nat (batch_size dl_covid)) (s :: perm) [])
    as [rest' E]; [simpl; lia | discriminate |].
  rewrite E in H. simpl app in H. congruence.
Qed.

(** C4, as the code has it.  With the loaders of [calculateDataLoaderTrain]
    and a minority pool of at least one minority batch, the combined
    batches of a training epoch that returns have exactly [B] samples,
    except the last one when the majority batch size does not divide the
    size of the majority pool: it then has the remainder plus the minority
    batch size. *)
Theorem combined_batch_sizes
    (args_dict : Args) (w0 : World) (dl_non_covid dl_covid : DataLoader) w1 t0
    (epoch : Z) (w : World) w' t :
  calculateDataLoaderTrain args_dict w0 = (Ok (dl_non_covid, dl_covid), w1, t0) ->
  batch_size dl_covid <= len (dataset dl_covid) ->
  trainEpoch dl_non_covid dl_covid epoch w = (Ok tt, w', t) ->
  let n := len (dataset dl_non_covid) in
  let b_nc := batch_size dl_non_covid in
  b_nc + batch_size dl_covid = batch args_dict /\
  batch_sizes t =
    repeat (batch args_dict) (Z.to_nat (n / b_nc)) ++
    (if n mod b_nc =? 0 then [] else [n mod b_nc + batch_size dl_covid]).
Proof.
  intros Hdl Hpool Hrun n b_nc.
  apply calculateDataLoaderTrain_Ok in Hdl.
  destruct Hdl as (cs & Hcs & Hnc & Hrest). cbn zeta in Hrest.
  destruct Hrest as (Ednc & Edc & _ & _).
  assert (Hcs1 : 1 <= cs).
  { apply covid_size_Ok in Hcs. destruct Hcs as (b & k & _ & _ & ->). lia. }
  assert (Hbnc : b_nc = batch args_dict - cs) by (subst b_nc; rewrite Ednc; reflexivity).
  assert (Hbc : batch_size dl_covid = cs) by (rewrite Edc; reflexivity).
  split; [lia|].
  apply trainEpoch_Ok in Hrun. cbn zeta in Hrun.
  destruct Hrun as (meters & w2 & t_loop & Hloop & ->).
  apply (for_each_Ok _ (fun item t => batch_sizes t = [len (snd item) + cs])) in Hloop.
  - destruct Hloop as (ts & -> & HF).
    change (ModelTrain :: RandomSampler ?p :: ?l) with ([ModelTrain; RandomSampler p] ++ l).
    rewrite !batch_sizes_app. cbn [batch_sizes flat_map app]. rewrite app_nil_r.
    rewrite (batch_sizes_concat (fun item => len (snd item) + cs) _ _ HF).
    rewrite <- (map_map snd (fun b => len b + cs)), map_snd_enumerate.
    rewrite <- (map_map len (fun k => k + cs)).
    rewrite batch_sampler_sizes by (simpl; lia).
    change (len (@nil Sample)) with 0. rewrite Z.add_0_l.
    rewrite Z2Nat.id by lia.
    assert (Hn : len (randperm (perform ModelTrain w) (dataset dl_non_covid)) = n).
    { subst n. unfold len. f_equal. symmetry. apply Permutation_length.
      apply randperm_Permutation. }
    rewrite Hn. fold b_nc.
    rewrite map_app, map_repeat. rewrite Hbc.
    replace (b_nc + cs) with (batch args_dict) by lia.
    f_equal. destruct (n mod b_nc =? 0); reflexivity.
  - intros meters0 [idx batch_nc] wi m' wi' ti Hstep.
    apply train_batch_Ok in Hstep. cbn zeta in Hstep.
    destruct Hstep as (batch_c & rest & out & loss & x0 & acc & pct & Hbs & _ & _ & _ & ->).
    apply minority_batch_is_prefix in Hbs; [|lia].
    cbn [batch_sizes flat_map app snd]. f_equal.
    rewrite len_app. unfold len at 1 2. rewrite !length_map. fold (len batch_nc).
    f_equal. rewrite Hbs, length_firstn.
    rewrite <- (Permutation_length (randperm_Permutation wi (dataset dl_covid))).
    unfold len in Hpool. lia.
Qed.

Lemma model_inputs_app t1 t2 : model_inputs (t1 ++ t2) = model_inputs t1 ++ model_inputs t2.
Proof. apply flat_map_app. Qed.

(** The batches a training epoch that returns gives to the network: a
    batch of the majority sampler followed by the first batch of a new
    iterator over the minority loader. *)
Lemma trainEpoch_parts dl_non_covid dl_covid epoch w w' t :
  trainEpoch dl_non_covid dl_covid epoch w = (Ok tt, w', t) ->
  exists perm0 (parts : list (list Sample * list Sample)),
    Permutation (dataset dl_non_covid) perm0 /\
    map fst parts = batch_sampler (Z.to_nat (batch_size dl_non_covid)) [] perm0 /\
    model_inputs t = map (fun p => map image (fst p) ++ map image (snd p)) parts /\
    Forall (fun p => exists wi rest,
              batch_sampler (Z.to_nat (batch_size dl_covid)) []
                (randperm wi (dataset dl_covid)) = snd p :: rest) parts.
Proof.
  intros H. apply trainEpoch_Ok in H. cbn zeta in H.
  destruct H as (meters & w1 & t_loop & Hloop & ->).
  eexists. 
  apply (for_each_Ok _ (fun item t =>
           exists m, model_inputs t = [map image (snd item) ++ map image m] /\
             exists wi rest,
               batch_sampler (Z.to_nat (batch_size dl_covid)) []
                 (randperm wi (dataset dl_covid)) = m :: rest)) in Hloop.
  - destruct Hloop as (ts & -> & HF).
    assert (Hparts : exists parts : list (list Sample * list Sample),
      map fst parts = map snd (enumerate (batch_sampler (Z.to_nat (batch_size dl_non_covid)) []
                         (randperm (perform ModelTrain w) (dataset dl_non_covid)))) /\
      model_inputs (List.concat ts)
        = map (fun p => map image (fst p) ++ map image (snd p)) parts /\
      Forall (fun p => exists wi rest,
                batch_sampler (Z.to_nat (batch_size dl_covid)) []
                  (randperm wi (dataset dl_covid)) = snd p :: rest) parts).
    { revert HF. generalize (enumerate (batch_sampler (Z.to_nat (batch_size dl_non_covid)) []
                         (randperm (perform ModelTrain w) (dataset dl_non_covid)))).
      intros items HF. induction HF as [|item ti items ts (m & Hm & Hfresh) _ IH].
      - exists []. repeat split; constructor.
      - destruct IH as (parts & Hf & Hin & Hall).
        exists ((snd item, m) :: parts). cbn [map fst snd List.concat].
        rewrite model_inputs_app, Hm, Hin, Hf. repeat split.
        constructor; assumption. }
    destruct Hparts as (parts & Hf & Hin & Hall).
    exists parts. split; [apply randperm_Permutation|].
    split; [now rewrite Hf, map_snd_enumerate|]. split; [|exact Hall].
    change (ModelTrain :: RandomSampler ?p :: ?l) with ([ModelTrain; RandomSampler p] ++ l).
    rewrite !model_inputs_app. cbn [model_inputs flat_map app]. now rewrite app_nil_r.
  - intros meters0 [idx batch_nc] wi m' wi' ti Hstep.
    apply train_batch_Ok in Hstep. cbn zeta in Hstep.
    destruct Hstep as (batch_c & rest & out & loss & x0 & acc & pct & Hb & _ & _ & _ & ->).
    exists batch_c. split; [reflexivity|]. exists wi, rest. exact Hb.
Qed.

(** The numbers of samples that the steps of a training epoch draw. *)
Lemma trainEpoch_draws dl_non_covid dl_covid epoch w w' t :
  1 <= batch_size dl_non_covid -> 1 <= batch_size dl_covid ->
  trainEpoch dl_non_covid dl_covid epoch w = (Ok tt, w', t) ->
  draws dl_non_covid dl_covid (batch_size dl_non_covid) (batch_size dl_covid) t.
Proof.
  intros Hnc Hc H. apply trainEpoch_parts in H.
  destruct H as (perm0 & parts & Hperm & Hfst & Hin & Hall).
  exists parts. split; [exact Hin|]. split; [|split; [|split]].
  - rewrite Hfst, batch_sampler_concat. exact Hperm.
  - eapply Forall_impl; [|exact Hall].
    intros p (wi & rest & Hb). exists (List.concat rest).
    pose proof (batch_sampler_concat (Z.to_nat (batch_size dl_covid))
                  (randperm wi (dataset dl_covid)) []) as Hcat.
    rewrite Hb in Hcat. cbn [List.concat app] in Hcat. rewrite Hcat.
    apply randperm_Permutation.
  - rewrite <- (map_map fst len), Hfst.
    rewrite batch_sampler_sizes by (cbn [List.length]; lia).
    change (len (@nil Sample)) with 0. rewrite Z.add_0_l, Z2Nat.id by lia.
    replace (len perm0) with (len (dataset dl_non_covid))
      by (unfold len; f_equal; apply Permutation_length, Hperm).
    reflexivity.
  - eapply Forall_impl; [|exact Hall].
    intros p (wi & rest & Hb).
    apply minority_batch_is_prefix in Hb; [|assumption].
    rewrite Hb. unfold len. rewrite length_firstn.
    rewrite <- (Permutation_length (randperm_Permutation wi (dataset dl_covid))).
    lia.
Qed.

(** C3, as the code has it.  When [calculateDataLoaderTrain] returns,
    [int(B * p)] is defined, [cs = max(int(B * p), 1)] is less than [B],
    where [B * p] is the binary64 product and [int] truncates, and both
    pools are non-empty; under these conditions it does return.  In every
    training epoch on its loaders that returns, every step gives the
    network [cs] minority samples, or the whole minority pool when it has
    fewer than [cs], and [B - cs] majority samples, except the last step,
    which takes what is left of the majority pool when [B - cs] does not
    divide its size.  With [B = 10] and [p = 0.3] the two numbers are 3
    and 7. *)
Theorem minority_majority_batch_sizes :
  (forall args_dict w dl_non_covid dl_covid w' t,
      calculateDataLoaderTrain args_dict w = (Ok (dl_non_covid, dl_covid), w', t) ->
      exists b n,
        F64.of_int (batch args_dict) = Ok b /\
        F64.to_int (F64.mul b (covid_percent args_dict)) = Ok n /\
        batch_size dl_covid = Z.max n 1 /\
        batch_size dl_non_covid = batch args_dict - Z.max n 1 /\
        1 <= batch_size dl_non_covid /\
        dataset dl_non_covid <> [] /\ dataset dl_covid <> []) /\
  (forall args_dict w dl_non_covid dl_covid w' t epoch w1 w1' t1,
      calculateDataLoaderTrain args_dict w = (Ok (dl_non_covid, dl_covid), w', t) ->
      trainEpoch dl_non_covid dl_covid epoch w1 = (Ok tt, w1', t1) ->
      draws dl_non_covid dl_covid (batch_size dl_non_covid) (batch_size dl_covid) t1) /\
  (forall args_dict w b n,
      F64.of_int (batch args_dict) = Ok b ->
      F64.to_int (F64.mul b (covid_percent args_dict)) = Ok n ->
      Z.max n 1 < batch args_dict ->
      let ev := PreprocessSplit (train_txt args_dict) (train_folder args_dict) in
      let ds := train_datasets (perform ev w) (train_txt args_dict) (train_folder args_dict) in
      fst ds <> [] -> snd ds <> [] ->
      calculateDataLoaderTrain args_dict w =
        (Ok ({| dataset := fst ds; batch_size := batch args_dict - Z.max n 1 |},
             {| dataset := snd ds; batch_size := Z.max n 1 |}),
         perform ev w, [ev])) /\
  (forall args_dict w dl_non_covid dl_covid w' t epoch w1 w1' t1,
      batch args_dict = 10 -> covid_percent args_dict = F64.decimal 3 10 ->
      calculateDataLoaderTrain args_dict w = (Ok (dl_non_covid, dl_covid), w', t) ->
      trainEpoch dl_non_covid dl_covid epoch w1 = (Ok tt, w1', t1) ->
      draws dl_non_covid dl_covid 7 3 t1).
Proof.
  assert (Hsizes : forall args_dict w dl_non_covid dl_covid w' t,
      calculateDataLoaderTrain args_dict w = (Ok (dl_non_covid, dl_covid), w', t) ->
      exists b n,
        F64.of_int (batch args_dict) = Ok b /\
        F64.to_int (F64.mul b (covid_percent args_dict)) = Ok n /\
        batch_size dl_covid = Z.max n 1 /\
        batch_size dl_non_covid = batch args_dict - Z.max n 1 /\
        1 <= batch_size dl_non_covid /\
        dataset dl_non_covid <> [] /\ dataset dl_covid <> []).
  { intros args_dict w dl_non_covid dl_covid w' t H.
    apply calculateDataLoaderTrain_Ok in H.
    destruct H as (cs & Hcs & Hnc & Hrest). cbn zeta in Hrest.
    destruct Hrest as (-> & -> & _ & _ & Hne1 & Hne2).
    apply covid_size_Ok in Hcs. destruct Hcs as (b & n & Hb & Hn & ->).
    exists b, n. cbn [batch_size dataset]. repeat split; assumption. }
  assert (Hdraws : forall args_dict w dl_non_covid dl_covid w' t epoch w1 w1' t1,
      calculateDataLoaderTrain args_dict w = (Ok (dl_non_covid, dl_covid), w', t) ->
      trainEpoch dl_non_covid dl_covid epoch w1 = (Ok tt, w1', t1) ->
      draws dl_non_covid dl_covid (batch_size dl_non_covid) (batch_size dl_covid) t1).
  { intros args_dict w dl_non_covid dl_covid w' t epoch w1 w1' t1 H Hep.
    apply Hsizes in H. destruct H as (b & n & _ & _ & Hc & _ & Hnc & _).
    apply trainEpoch_draws in Hep; [exact Hep | exact Hnc | lia]. }
  split; [exact Hsizes|]. split; [exact Hdraws|]. split.
  - intros args_dict w b n Hb Hn Hlt ev ds Hne1 Hne2.
    apply calculateDataLoaderTrain_Ok. exists (Z.max n 1).
    split; [apply covid_size_Ok; eauto|]. split; [lia|].
    cbn zeta. repeat split; assumption.
  - intros args_dict w dl_non_covid dl_covid w' t epoch w1 w1' t1 HB Hp H Hep.
    pose proof (Hdraws _ _ _ _ _ _ _ _ _ _ H Hep) as Hd.
    apply Hsizes in H. destruct H as (b & n & Hb & Hn & Hc & Hnc & _).
    rewrite HB in Hb. rewrite Hp in Hn.
    assert (Eb : b = F64.of_Z 10)
      by (apply Ok_inj; rewrite <- Hb; vm_compute; reflexivity).
    subst b.
    assert (En : n = 3)
      by (apply Ok_inj; rewrite <- Hn; vm_compute; reflexivity).
    subst n. rewrite HB in Hnc.
    rewrite Hc, Hnc in Hd. exact Hd.
Qed.

(** C9.  In a training epoch that returns, every step, one per majority
    batch, first draws a new permutation of the whole minority pool, in
    the world as it is at that step, and gives the network the majority
    batch followed by the first [batch_size] samples of that permutation:
    no position in the minority loader is kept from one step to the next,
    and none depends on the index of the majority batch. *)
Theorem minority_batch_from_fresh_iterator
    (dl_non_covid dl_covid : DataLoader) (epoch : Z) (w : World) w' t :
  1 <= batch_size dl_covid ->
  trainEpoch dl_non_covid dl_covid epoch w = (Ok tt, w', t) ->
  exists perm0 steps plots,
    let batches := batch_sampler (Z.to_nat (batch_size dl_non_covid)) [] perm0 in
    t = ModelTrain :: RandomSampler perm0 :: List.concat steps ++ plots /\
    Forall (fun ev => is_sampler ev = false) plots /\
    List.length steps = List.length batches /\
    Forall2 (fresh_minority_step dl_covid) (enumerate batches) steps.
Proof.
  intros Hbs Hrun. apply trainEpoch_Ok in Hrun. cbn zeta in Hrun.
  destruct Hrun as (meters & w1 & t_loop & Hloop & ->).
  apply (for_each_Ok _ (fresh_minority_step dl_covid)) in Hloop.
  - destruct Hloop as (steps & -> & HF).
    do 3 eexists. cbn zeta. split; [reflexivity|].
    split; [repeat constructor|]. split; [|exact HF].
    rewrite <- (Forall2_length HF).
    rewrite <- (map_snd_enumerate (batch_sampler _ _ _)) at 2.
    now rewrite length_map.
  - intros meters0 [idx batch_nc] wi m' wi' ti Hstep.
    apply train_batch_Ok in Hstep. cbn zeta in Hstep.
    destruct Hstep as (batch_c & rest & out & loss & x0 & acc & pct & Hb & _ & _ & _ & ->).
    apply minority_batch_is_prefix in Hb; [|assumption]. subst batch_c.
    exists wi, out. eexists. cbn zeta.
    split; [apply randperm_Permutation|]. split; [reflexivity|].
    repeat constructor.
Qed.

(** The weight of both meters in a training step is the size of the
    first dimension of the first image of the combined batch. *)
Lemma train_batch_meter_weight
    dl_non_covid dl_covid epoch meters batch_idx batch_nc w m' w' t :
  train_batch dl_non_covid dl_covid epoch meters (batch_idx, batch_nc) w = (Ok m', w', t) ->
  exists (x_batch : list Image) (x0 : Image),
    batch_sizes t = [len x_batch] /\
    nth_error x_batch 0 = Some x0 /\
    AverageMeter.count (losses m') = AverageMeter.count (losses meters) + len x0 /\
    AverageMeter.count (accuracies m') = AverageMeter.count (accuracies meters) + len x0.
Proof.
  intros H. apply train_batch_Ok in H. cbn zeta in H.
  destruct H as (batch_c & rest & out & loss & x0 & acc & pct & _ & Hx0 & Hl & Ha & ->).
  exists (map image batch_nc ++ map image batch_c), x0.
  rewrite Hl, Ha. repeat split; try reflexivity. exact Hx0.
Qed.

End Loaders.

(** * Further properties *)

(** ** Comparisons on a NaN and on equal values *)

Lemma SFltb_irrefl (a : spec_float) : SFltb a a = false.
Proof.
  destruct (SFltb a a) eqn:E; [|reflexivity].
  rewrite (SFltb_asym _ _ E) in E. discriminate E.
Qed.

Lemma nan_compare (a b : spec_float) :
  F64.is_nan a = true ->
  SFltb a b = false /\ SFltb b a = false /\ SFleb a b = false /\ SFleb b a = false.
Proof.
  destruct a; try discriminate. intros _.
  unfold SFltb, SFleb. destruct b as [[|]|[|]| |[|] m e]; repeat split; reflexivity.
Qed.

Lemma range_In e n : In e (range n) -> 0 <= e < n.
Proof.
  unfold range. rewrite in_map_iff. intros (k & <- & Hk).
  apply in_seq in Hk. lia.
Qed.

Lemma last_cons_default {A : Type} (x : A) (l : list A) (d : A) :
  last (x :: l) d = last l x.
Proof.
  revert x d. induction l as [|y l IH]; intros x d; [reflexivity|].
  change (last (x :: y :: l) d) with (last (y :: l) d).
  rewrite (IH y d), (IH y x). reflexivity.
Qed.

Section MoreMonadFacts.
Context {X : External} {C : Collaborators}.


Lemma bind_Ok_run {A B : Type} (m : M A) (f : A -> M B) w a w1 t1 r w2 t2 :
  m w = (Ok a, w1, t1) -> f a w1 = (r, w2, t2) -> bind m f w = (r, w2, t1 ++ t2).
Proof. unfold bind. intros -> ->. reflexivity. Qed.

Lemma emits_for_each_In {A S : Type} P (body : S -> A -> M S) xs :
  (forall s x, In x xs -> emits P (body s x)) -> forall s, emits P (for_each body xs s).
Proof.
  induction xs as [|x xs IH]; intros Hb s; simpl.
  - apply emits_ret.
  - apply emits_bind.
    + apply Hb. now left.
    + intros s'. apply IH. intros s0 y Hy. apply Hb. now right.
Qed.

Lemma checkpoints_app t1 t2 : checkpoints (t1 ++ t2) = checkpoints t1 ++ checkpoints t2.
Proof. apply flat_map_app. Qed.

Lemma saved_bests_app t1 t2 : saved_bests (t1 ++ t2) = saved_bests t1 ++ saved_bests t2.
Proof. unfold saved_bests. now rewrite checkpoints_app, map_app. Qed.

Lemma training_no_checkpoint t :
  Forall (fun ev => training_event ev = true) t -> checkpoints t = [].
Proof.
  induction 1 as [|ev t Hev _ IH]; [reflexivity|].
  simpl. rewrite IH. destruct ev; try discriminate; reflexivity.
Qed.

Lemma training_no_scheduler t :
  Forall (fun ev => training_event ev = true) t -> scheduler_metrics t = [].
Proof.
  induction 1 as [|ev t Hev _ IH]; [reflexivity|].
  simpl. rewrite IH. destruct ev; try discriminate; reflexivity.
Qed.

(** What one iteration of the loop of [train_model] that returns leaves
    in its trace. *)
Lemma train_model_epoch_summary dl_non_covid dl_covid pat best epoch w b' w' t :
  train_model_epoch dl_non_covid dl_covid pat best epoch w = (Ok b', w', t) ->
  exists sens acc,
    validations t = [(sens, acc)] /\
    scheduler_metrics t = [acc] /\
    saved_bests t = (if qualifies best sens acc then [sens] else []) /\
    b' = (if qualifies best sens acc then sens else best).
Proof.
  intros H. apply train_model_epoch_Ok in H.
  destruct H as (w1 & t_train & sens & acc & w3 & t_ck & Htr & Hv & Hck & ->).
  pose proof (trainEpoch_emits dl_non_covid dl_covid epoch w) as Hem.
  rewrite Htr in Hem. cbn [snd] in Hem.
  exists sens, acc.
  rewrite checkpoint_policy_run in Hck.
  unfold validations, scheduler_metrics, saved_bests, checkpoints.
  rewrite !flat_map_app.
  fold (validations t_train). fold (scheduler_metrics t_train). fold (checkpoints t_train).
  rewrite (training_no_validation _ Hem), (training_no_scheduler _ Hem),
    (training_no_checkpoint _ Hem).
  destruct (qualifies best sens acc).
  - apply pair_equal_spec in Hck. destruct Hck as [Hck <-].
    apply pair_equal_spec in Hck. destruct Hck as [Hb _]. apply Ok_inj in Hb. subst b'.
    repeat split; reflexivity.
  - apply pair_equal_spec in Hck. destruct Hck as [Hck <-].
    apply pair_equal_spec in Hck. destruct Hck as [Hb _]. apply Ok_inj in Hb. subst b'.
    repeat split; reflexivity.
Qed.

End MoreMonadFacts.

Section RunFacts.
Context {X : External} {C : Collaborators}.

(** A run of [train_model] that returns: the set-up, in which the value
    of [best_sensit] is resumed, then the loop. *)
Lemma train_model_Ok args_dict w0 wf tf :
  train_model args_dict w0 = (Ok tt, wf, tf) ->
  exists t_setup dl_non_covid dl_covid best0 w1 bf t_loop,
    tf = t_setup ++ t_loop /\
    Forall (fun ev => setup_event ev = true) t_setup /\
    In (Resume best0) t_setup /\
    train_loop args_dict dl_non_covid dl_covid best0 w1 = (Ok bf, wf, t_loop).
Proof.
  intros H. unfold train_model in H.
  apply bind_Ok in H. destruct H as (mv & w1 & t1 & t2 & Hm & H & ->).
  assert (Hs1 : Forall (fun ev => setup_event ev = true) t1).
  { assert (E : emits (fun ev => setup_event ev = true)
                  (if String.eqb (model args_dict) "covidnet"
                   then bind (call (NewCovidNet (n_classes args_dict)))
                             (fun _ => ret (Some CovidNet))
                   else if String.eqb (model args_dict) "resnet"
                   then bind (call (NewResNet (n_classes args_dict)))
                             (fun _ => ret (Some ResNet))
                   else ret None)) by emits_auto.
    specialize (E w0). now rewrite Hm in E. }
  inv_run. subst.
  match goal with
  | Hc : calculateDataLoaderTrain _ ?w = (Ok ?p, _, ?t) |- _ =>
      pose proof (calculateDataLoaderTrain_emits args_dict w) as Hem;
      rewrite Hc in Hem; cbn [snd] in Hem; destruct p as [dl_non_covid dl_covid]
  end.
  inv_run. subst.
  match goal with
  | Hl : local _ _ _ = _ |- _ =>
      unfold local in Hl; destruct mv; [|discriminate Hl];
      unfold ret in Hl; inversion Hl; subst; clear Hl
  end.
  match goal with
  | Hl : train_loop _ _ _ ?b ?w = (Ok ?bf, _, ?tl) |- _ =>
      match goal with
      | |- exists _ _ _ _ _ _ _,
          ?a ++ ?b1 ++ ?c ++ ?d ++ ?e ++ ?f ++ ?g ++ ?h ++ ?i ++ ?j ++ ?k ++ ?l ++ _ ++ [] = _ /\ _ =>
          exists (a ++ b1 ++ c ++ d ++ e ++ f ++ g ++ h ++ i ++ j ++ k ++ l),
            dl_non_covid, dl_covid, b, w, bf, tl
      end
  end.
  split.
  { repeat first [rewrite <- app_assoc | rewrite app_nil_r | progress cbn [app]].
    reflexivity. }
  split.
  { apply Forall_app. split; [assumption|]. cbn [app].
    repeat (constructor; [reflexivity|]).
    apply Forall_app. split; [assumption | repeat constructor]. }
  split; [|eassumption].
  apply in_or_app. right. cbn [app]. do 4 right. left. reflexivity.
Qed.

Lemma setup_no_checkpoint t :
  Forall (fun ev => setup_event ev = true) t ->
  checkpoints t = [] /\ validations t = [] /\ scheduler_metrics t = [].
Proof.
  induction 1 as [|ev t Hev _ (IH1 & IH2 & IH3)]; [repeat split|].
  unfold checkpoints, validations, scheduler_metrics in *. cbn [flat_map].
  rewrite IH1, IH2, IH3.
  destruct ev; try discriminate; repeat split; reflexivity.
Qed.

(** The checkpoints of the loop improve strictly on one another. *)
Lemma train_model_epochs_chain dl_non_covid dl_covid pat xs :
  forall best w b' w' t,
    for_each (train_model_epoch dl_non_covid dl_covid pat) xs best w = (Ok b', w', t) ->
    strictly_increasing_from best (saved_bests t) /\
    b' = last (saved_bests t) best.
Proof.
  induction xs as [|x xs IH]; intros best w b' w' t H; cbn [for_each] in H.
  - apply ret_Ok in H. destruct H as (-> & _ & ->). split; [exact I | reflexivity].
  - apply bind_Ok in H. destruct H as (b1 & w1 & t1 & t2 & Hb & Hr & ->).
    apply IH in Hr. destruct Hr as [Hchain Hlast].
    destruct (train_model_epoch_summary _ _ _ _ _ _ _ _ _ Hb)
      as (sens & acc & _ & _ & Hsaved & Hb1).
    rewrite saved_bests_app, Hsaved.
    destruct (qualifies best sens acc) eqn:Q; subst b1.
    + apply qualifies_true in Q. cbn [app strictly_increasing_from].
      split; [split; [exact (proj2 Q) | exact Hchain]|].
      rewrite last_cons_default. exact Hlast.
    + cbn [app]. split; assumption.
Qed.

(** The validations and the steps of the scheduler of the loop. *)
Lemma train_model_epochs_metrics dl_non_covid dl_covid pat xs :
  forall best w b' w' t,
    for_each (train_model_epoch dl_non_covid dl_covid pat) xs best w = (Ok b', w', t) ->
    scheduler_metrics t = map snd (validations t) /\
    List.length (validations t) = List.length xs.
Proof.
  induction xs as [|x xs IH]; intros best w b' w' t H; cbn [for_each] in H.
  - apply ret_Ok in H. destruct H as (_ & _ & ->). split; reflexivity.
  - apply bind_Ok in H. destruct H as (b1 & w1 & t1 & t2 & Hb & Hr & ->).
    apply IH in Hr. destruct Hr as [Hs Hl].
    destruct (train_model_epoch_summary _ _ _ _ _ _ _ _ _ Hb)
      as (sens & acc & Hv & Hsch & _ & _).
    unfold scheduler_metrics, validations in *. rewrite !flat_map_app.
    rewrite Hv, Hsch, Hs. cbn [app map snd List.length]. rewrite Hl.
    split; reflexivity.
Qed.

End RunFacts.

Ltac emits_within :=
  repeat match goal with
  | |- emits _ (bind _ _) => apply emits_bind; [|intros]
  | |- emits _ (ret _) => apply emits_ret
  | |- emits _ (raise _) => apply emits_raise
  | |- emits _ (lift _) => apply emits_lift
  | |- emits _ (query _) => apply emits_query
  | |- emits _ (call _) => apply emits_call; first [exact I | assumption]
  | |- emits _ (for_each _ _ _) => apply emits_for_each; intros
  | |- emits _ (if ?b then _ else _) => destruct b
  | |- emits _ (match ?x with _ => _ end) => destruct x
  end.

Section RunTheorems.
Context {X : External} {C : Collaborators}.

(** X1.  In a run of [train_model] that returns, the values of
    [best_sensit] stored in the successive checkpoints are strictly
    increasing, and the first one is strictly greater than the value
    resumed at start-up. *)
Theorem checkpoints_strictly_improve (args_dict : Args) (w0 : World) wf tf :
  train_model args_dict w0 = (Ok tt, wf, tf) ->
  exists best0,
    In (Resume best0) tf /\ strictly_increasing_from best0 (saved_bests tf).
Proof.
  intros H. apply train_model_Ok in H.
  destruct H as (t_setup & dl_nc & dl_c & best0 & w1 & bf & t_loop & -> & Hs & Hin & Hl).
  exists best0. split; [apply in_or_app; now left|].
  rewrite saved_bests_app. unfold saved_bests at 1.
  rewrite (proj1 (setup_no_checkpoint _ Hs)). cbn [map app].
  unfold train_loop in Hl. apply train_model_epochs_chain in Hl. exact (proj1 Hl).
Qed.

(** X2.  When the loop of [train_model] returns, [best_sensit] is the
    value stored in the last checkpoint it saved, and the value it started
    with when it saved none. *)
Theorem best_sensit_is_last_checkpoint
    (args_dict : Args) (dl_non_covid dl_covid : DataLoader) (best0 : float)
    (w0 : World) bf wf tf :
  train_loop args_dict dl_non_covid dl_covid best0 w0 = (Ok bf, wf, tf) ->
  bf = last (saved_bests tf) best0 /\
  (saves tf = false -> bf = best0).
Proof.
  intros H. unfold train_loop in H. apply train_model_epochs_chain in H.
  destruct H as [_ Hlast]. split; [exact Hlast|].
  intros Hs. rewrite Hlast. unfold saved_bests, checkpoints, saves in *.
  clear Hlast. induction tf as [|ev tf IH]; [reflexivity|].
  cbn [existsb flat_map] in *. apply orb_false_iff in Hs. destruct Hs as [Hev Htf].
  destruct ev; try discriminate Hev; cbn [app]; apply IH; exact Htf.
Qed.

Lemma trainEpoch_emits_within n dl_non_covid dl_covid epoch :
  0 <= epoch < n -> emits (within_run n) (trainEpoch dl_non_covid dl_covid epoch).
Proof.
  intros He. assert (Hp : forall a b c y, within_run n (Plot a b c epoch y))
    by (intros; exact He).
  unfold trainEpoch, train_batch, iter, next.
  repeat match goal with
  | |- emits _ (bind _ _) => apply emits_bind; [|intros]
  | |- emits _ (ret _) => apply emits_ret
  | |- emits _ (raise _) => apply emits_raise
  | |- emits _ (lift _) => apply emits_lift
  | |- emits _ (query _) => apply emits_query
  | |- emits _ (call _) => apply emits_call; first [exact I | apply Hp]
  | |- emits _ (for_each _ _ _) => apply emits_for_each; intros
  | |- emits _ (match ?x with _ => _ end) => destruct x
  end.
Qed.

Lemma checkpoint_policy_emits_within n epoch pat best sens acc :
  0 <= epoch < n -> emits (within_run n) (checkpoint_policy epoch pat best sens acc).
Proof.
  intros He w. rewrite checkpoint_policy_run.
  destruct (qualifies best sens acc) eqn:Q; cbn [snd].
  - apply qualifies_true in Q. constructor; [exact I|]. constructor; [|constructor].
    cbn [within_run checkpoint_of curr_val ckpt_epoch]. split; [exact (proj1 Q) | lia].
  - constructor.
Qed.

Lemma train_model_epoch_emits_within n dl_non_covid dl_covid pat best epoch :
  0 <= epoch < n ->
  emits (within_run n) (train_model_epoch dl_non_covid dl_covid pat best epoch).
Proof.
  intros He. assert (Hp : forall a b c y, within_run n (Plot a b c epoch y))
    by (intros; exact He).
  unfold train_model_epoch. apply emits_bind; [now apply trainEpoch_emits_within|].
  intros _. unfold valEpoch, after_validation.
  apply emits_bind; [emits_within|]. intros [sens acc].
  apply emits_bind; [apply emits_call; exact I|]. intros _.
  apply emits_bind; [now apply checkpoint_policy_emits_within|]. intros b.
  apply emits_bind; [apply emits_call; exact I|]. intros _.
  apply emits_bind; [apply emits_call; apply Hp|]. intros _.
  apply emits_bind; [apply emits_call; apply Hp|]. intros _.
  apply emits_ret.
Qed.

Lemma setup_event_within n ev : setup_event ev = true -> within_run n ev.
Proof. destruct ev as [[]| | | | | | | | | | | | | | | | | | | |]; cbn; discriminate || trivial. Qed.

(** X3.  Whatever its outcome, a run of [train_model] saves only
    checkpoints whose accuracy is at least [0.80] and whose epoch number
    lies between 1 and [epochs], and plots only points whose epoch index
    lies between 0 and [epochs - 1]. *)
Theorem checkpoints_and_plots_within_run (args_dict : Args) (w : World) :
  Forall (within_run (epochs args_dict)) (snd (train_model args_dict w)).
Proof.
  revert w. change (emits (within_run (epochs args_dict)) (train_model args_dict)).
  unfold train_model.
  apply emits_bind.
  { eapply emits_weaken; [apply setup_event_within|]. emits_auto. }
  intros mv. apply emits_bind; [apply emits_call; exact I|]. intros _.
  apply emits_bind; [destruct mv; [apply emits_ret | apply emits_raise]|]. intros _.
  do 3 (apply emits_bind; [apply emits_call; exact I|]; intros _).
  apply emits_bind; [apply emits_query|]. intros best.
  do 2 (apply emits_bind; [apply emits_call; exact I|]; intros _).
  apply emits_bind.
  { eapply emits_weaken; [apply setup_event_within|].
    apply calculateDataLoaderTrain_emits. }
  intros [dl_non_covid dl_covid].
  do 2 (apply emits_bind; [apply emits_call; exact I|]; intros _).
  apply emits_bind; [|intros; apply emits_ret].
  unfold train_loop. apply emits_for_each_In. intros s e He.
  apply train_model_epoch_emits_within. now apply range_In.
Qed.

(** X4.  In a run of [train_model] that returns, the scheduler is stepped
    once for every validation pass, on the accuracy that pass returned and
    in the same order, also in the epochs below the threshold of the
    checkpoint policy; and there are as many validation passes as
    epochs. *)
Theorem scheduler_sees_every_validation (args_dict : Args) (w0 : World) wf tf :
  train_model args_dict w0 = (Ok tt, wf, tf) ->
  scheduler_metrics tf = map snd (validations tf) /\
  List.length (validations tf) = Z.to_nat (epochs args_dict).
Proof.
  intros H. apply train_model_Ok in H.
  destruct H as (t_setup & dl_nc & dl_c & best0 & w1 & bf & t_loop & -> & Hs & _ & Hl).
  destruct (setup_no_checkpoint _ Hs) as (_ & Hv & Hm).
  unfold train_loop in Hl. apply train_model_epochs_metrics in Hl.
  destruct Hl as [Hsm Hlen].
  unfold scheduler_metrics, validations in *. rewrite !flat_map_app.
  rewrite Hv, Hm. cbn [app]. split; [exact Hsm|].
  rewrite Hlen. apply range_length.
Qed.

(** X5.  A NaN never reaches a checkpoint: the checkpoint policy saves
    nothing and keeps [best_sensit] when the accuracy, the sensitivity or
    [best_sensit] is a NaN; and a loop that starts with a NaN as
    [best_sensit] saves no checkpoint at all and ends with it. *)
Theorem nan_never_checkpoints :
  (forall epoch pat best sens acc w,
      F64.is_nan acc = true \/ F64.is_nan sens = true \/ F64.is_nan best = true ->
      checkpoint_policy epoch pat best sens acc w = (Ok best, w, [])) /\
  (forall args_dict dl_non_covid dl_covid best0 w0 bf wf tf,
      F64.is_nan best0 = true ->
      train_loop args_dict dl_non_covid dl_covid best0 w0 = (Ok bf, wf, tf) ->
      bf = best0 /\ saves tf = false).
Proof.
  assert (Hq : forall best sens acc,
    F64.is_nan acc = true \/ F64.is_nan sens = true \/ F64.is_nan best = true ->
    qualifies best sens acc = false).
  { intros best sens acc [H|[H|H]]; unfold qualifies, F64.ge, F64.gt.
    - destruct (nan_compare acc min_accuracy H) as (_ & _ & _ & E).
      rewrite E. reflexivity.
    - destruct (nan_compare sens best H) as (_ & E & _ & _).
      rewrite E. apply andb_false_r.
    - destruct (nan_compare best sens H) as (E & _ & _ & _).
      rewrite E. apply andb_false_r. }
  split.
  - intros epoch pat best sens acc w H.
    rewrite checkpoint_policy_run, (Hq _ _ _ H). reflexivity.
  - intros args_dict dl_non_covid dl_covid best0 w0 bf wf tf Hn.
    unfold train_loop. generalize (range (epochs args_dict)). intros xs.
    revert w0 bf wf tf. induction xs as [|x xs IH]; intros w0 bf wf tf H; cbn [for_each] in H.
    + apply ret_Ok in H. destruct H as (-> & _ & ->). split; reflexivity.
    + apply bind_Ok in H. destruct H as (b1 & w1 & t1 & t2 & Hb & Hr & ->).
      destruct (train_model_epoch_policy _ _ _ _ _ _ _ _ _ Hb)
        as (sens & acc & _ & Hs & Hb1).
      rewrite (Hq best0 sens acc (or_intror (or_intror Hn))) in Hs, Hb1. subst b1.
      apply IH in Hr. destruct Hr as [-> Hs2].
      split; [reflexivity|]. rewrite saves_app, Hs, Hs2. reflexivity.
Qed.

(** X6.  The two comparisons of the checkpoint policy at their bounds: a
    sensitivity equal to [best_sensit] saves nothing, whatever the
    accuracy; an accuracy equal to the threshold [0.80] is enough for a
    strictly better sensitivity to be saved. *)
Theorem ties_do_not_checkpoint_and_threshold_does :
  (forall epoch pat best acc w,
      checkpoint_policy epoch pat best best acc w = (Ok best, w, [])) /\
  (forall epoch pat best sens w,
      F64.gt sens best = true ->
      exists w' c,
        checkpoint_policy epoch pat best sens min_accuracy w
          = (Ok sens, w', [Print BestModelFound; SaveModel c]) /\
        ckpt_best_sensit c = sens /\ curr_val c = min_accuracy).
Proof.
  split.
  - intros epoch pat best acc w. rewrite checkpoint_policy_run.
    unfold qualifies, F64.gt. rewrite SFltb_irrefl, andb_false_r. reflexivity.
  - intros epoch pat best sens w H. rewrite checkpoint_policy_run.
    unfold qualifies. rewrite H.
    replace (F64.ge min_accuracy min_accuracy) with true by (vm_compute; reflexivity).
    cbn [andb]. do 2 eexists. split; [reflexivity|]. split; reflexivity.
Qed.


(** X8.  With [epochs <= 0], [train_model] makes set-up calls only: it
    never trains, validates, steps the scheduler, saves or plots. *)
Theorem no_epoch_when_epochs_not_positive (args_dict : Args) (w : World) :
  epochs args_dict <= 0 ->
  Forall (fun ev => setup_event ev = true) (snd (train_model args_dict w)).
Proof.
  intros Hn. revert w.
  change (emits (fun ev => setup_event ev = true) (train_model args_dict)).
  unfold train_model.
  apply emits_bind; [emits_auto|]. intros mv.
  apply emits_bind; [apply emits_call; reflexivity|]. intros _.
  apply emits_bind; [destruct mv; [apply emits_ret | apply emits_raise]|]. intros _.
  do 3 (apply emits_bind; [apply emits_call; reflexivity|]; intros _).
  apply emits_bind; [apply emits_query|]. intros best.
  do 2 (apply emits_bind; [apply emits_call; reflexivity|]; intros _).
  apply emits_bind; [apply calculateDataLoaderTrain_emits|].
  intros [dl_non_covid dl_covid].
  do 2 (apply emits_bind; [apply emits_call; reflexivity|]; intros _).
  apply emits_bind; [|intros; apply emits_ret].
  unfold train_loop, range. replace (Z.to_nat (epochs args_dict)) with 0%nat by lia.
  apply emits_ret.
Qed.

End RunTheorems.

Section EpochTheorems2.
Context {X : External} {C : Collaborators}.

(** X9.  A training epoch that returns puts the model in training mode,
    draws one permutation of the majority pool, runs exactly
    [len(dl_non_covid)] steps, and plots the averages of the loss meter
    and of the accuracy meter as they are after the last step.  The
    meters start empty; each step draws the minority permutation, calls
    the network and the loss, updates the loss meter with the loss and
    the accuracy meter with the fraction of predictions equal to the
    labels, then calls [zero_grad], [backward] and the optimizer step in
    this order, and prints a progress line with the updated meters; the
    progress lines count the batches from 0 to [len(dl_non_covid) - 1] in
    order. *)
Theorem training_epoch_steps
    (dl_non_covid dl_covid : DataLoader) (epoch : Z) (w : World) w' t :
  1 <= batch_size dl_non_covid ->
  trainEpoch dl_non_covid dl_covid epoch w = (Ok tt, w', t) ->
  exists perm0 steps meters,
    t = ModelTrain :: RandomSampler perm0 :: List.concat steps ++
        [Plot "loss" "train" "Cross Entropy Loss" epoch (AverageMeter.avg (losses meters));
         Plot "Acc" "train" "Accuracy" epoch (AverageMeter.avg (accuracies meters))] /\
    Permutation (dataset dl_non_covid) perm0 /\
    List.length steps = Z.to_nat (len_DataLoader dl_non_covid) /\
    chain (step_trace epoch (len_DataLoader dl_non_covid))
      {| losses := AverageMeter.init; accuracies := AverageMeter.init |}
      (range (len_DataLoader dl_non_covid)) steps meters.
Proof.
  intros Hbs H. apply trainEpoch_Ok in H. cbn zeta in H.
  destruct H as (meters & w1 & t_loop & Hloop & ->).
  apply (for_each_chain _ (fun m item =>
           step_trace epoch (len_DataLoader dl_non_covid) m (fst item))) in Hloop.
  - destruct Hloop as (steps & -> & Hc).
    apply (chain_map fst (step_trace epoch (len_DataLoader dl_non_covid))) in Hc.
    rewrite map_fst_enumerate in Hc.
    rewrite batch_sampler_count in Hc by assumption.
    replace (len (randperm (perform ModelTrain w) (dataset dl_non_covid)))
      with (len (dataset dl_non_covid)) in Hc
      by (unfold len; f_equal; apply Permutation_length, randperm_Permutation).
    fold (len_DataLoader dl_non_covid) in Hc.
    exists (randperm (perform ModelTrain w) (dataset dl_non_covid)), steps, meters.
    split; [reflexivity|]. split; [apply randperm_Permutation|].
    split; [|exact Hc].
    rewrite <- (range_length (len_DataLoader dl_non_covid)).
    apply chain_length in Hc. symmetry. exact Hc.
  - intros m [idx batch_nc] wi m' wi' ti Hstep. cbn [fst].
    apply train_batch_step in Hstep. exact Hstep.
Qed.

(** X10.  In a training epoch that returns, the majority parts of the
    batches given to the network are, end to end, a permutation of the
    majority pool: every majority sample is used exactly once; and the
    minority part of every batch is part of a permutation of the minority
    pool, so no minority sample is repeated within a batch. *)
Theorem every_majority_sample_once_per_epoch
    (dl_non_covid dl_covid : DataLoader) (epoch : Z) (w : World) w' t :
  trainEpoch dl_non_covid dl_covid epoch w = (Ok tt, w', t) ->
  exists parts : list (list Sample * list Sample),
    model_inputs t = map (fun p => map image (fst p) ++ map image (snd p)) parts /\
    Permutation (dataset dl_non_covid) (List.concat (map fst parts)) /\
    Forall (fun p => exists rest, Permutation (dataset dl_covid) (snd p ++ rest)) parts.
Proof.
  intros H. apply trainEpoch_parts in H.
  destruct H as (perm0 & parts & Hperm & Hfst & Hin & Hall).
  exists parts. split; [exact Hin|]. split.
  - rewrite Hfst, batch_sampler_concat. exact Hperm.
  - eapply Forall_impl; [|exact Hall].
    intros p (wi & rest & Hb). exists (List.concat rest).
    pose proof (batch_sampler_concat (Z.to_nat (batch_size dl_covid))
                  (randperm wi (dataset dl_covid)) []) as Hc.
    rewrite Hb in Hc. cbn [List.concat app] in Hc. rewrite Hc.
    apply randperm_Permutation.
Qed.

(** X11.  When the minority pool has no more samples than the minority
    batch size, every batch of a training epoch that returns contains the
    whole minority pool: its size is the size of the majority batch plus
    the size of the pool. *)
Theorem small_minority_pool_is_used_whole
    (dl_non_covid dl_covid : DataLoader) (epoch : Z) (w : World) w' t :
  1 <= batch_size dl_covid ->
  len (dataset dl_covid) <= batch_size dl_covid ->
  trainEpoch dl_non_covid dl_covid epoch w = (Ok tt, w', t) ->
  exists parts : list (list Sample * list Sample),
    model_inputs t = map (fun p => map image (fst p) ++ map image (snd p)) parts /\
    Forall (fun p => Permutation (dataset dl_covid) (snd p)) parts /\
    batch_sizes t = map (fun p => len (fst p) + len (dataset dl_covid)) parts.
Proof.
  intros Hbs Hsmall H. apply trainEpoch_parts in H.
  destruct H as (perm0 & parts & _ & _ & Hin & Hall).
  assert (Hall' : Forall (fun p => Permutation (dataset dl_covid) (snd p)) parts).
  { eapply Forall_impl; [|exact Hall].
    intros p (wi & rest & Hb).
    apply minority_batch_is_prefix in Hb; [|assumption].
    rewrite Hb, firstn_all2.
    - apply randperm_Permutation.
    - rewrite <- (Permutation_length (randperm_Permutation wi (dataset dl_covid))).
      unfold len in Hsmall. lia. }
  exists parts. split; [exact Hin|]. split; [exact Hall'|].
  assert (Hbm : forall t0, batch_sizes t0 = map len (model_inputs t0)).
  { intros t0. induction t0 as [|ev t0 IH]; [reflexivity|].
    unfold batch_sizes, model_inputs in *. cbn [flat_map]. rewrite map_app, IH.
    destruct ev; reflexivity. }
  rewrite Hbm, Hin, map_map. clear Hin Hall.
  induction Hall' as [|p parts Hp _ IH]; [reflexivity|].
  cbn [map]. rewrite IH. f_equal.
  rewrite len_app. unfold len. rewrite !length_map.
  now rewrite (Permutation_length Hp).
Qed.

(** X12.  With [batch <= 1], [calculateDataLoaderTrain] builds no loader,
    whatever the minority fraction: it raises after the preprocessing
    call, the majority batch size being zero or less when [covid_size] is
    defined. *)
Theorem batch_of_one_builds_no_loader (args_dict : Args) (w : World) :
  batch args_dict <= 1 ->
  let ev := PreprocessSplit (train_txt args_dict) (train_folder args_dict) in
  exists e, calculateDataLoaderTrain args_dict w = (Raise e, perform ev w, [ev]).
Proof.
  intros Hb ev. unfold calculateDataLoaderTrain. fold ev.
  unfold bind at 1. cbn [call]. unfold bind at 1. cbn [query].
  destruct (train_datasets (perform ev w) (train_txt args_dict) (train_folder args_dict))
    as [nc c].
  unfold bind at 1. cbn [lift].
  destruct (covid_size args_dict) as [cs|e] eqn:Hcs.
  - assert (1 <= cs).
    { apply covid_size_Ok in Hcs. destruct Hcs as (b & n & _ & _ & ->). lia. }
    unfold bind at 1. cbn [lift]. unfold new_DataLoader at 1.
    destruct (len nc =? 0); [eexists; reflexivity|].
    destruct (Z.leb_spec (batch args_dict - cs) 0); [|lia].
    eexists. reflexivity.
  - eexists. reflexivity.
Qed.

End EpochTheorems2.

Lemma binary_round_aux_cases (s : bool) (m e : Z) (l : location) :
  match binary_round_aux F64.prec F64.emax s m e l with
  | S754_zero s' => s' = s
  | S754_finite s' _ _ => s' = s
  | S754_infinity s' => s' = s
  | S754_nan => True
  end.
Proof.
  unfold binary_round_aux.
  destruct (shr_fexp F64.prec F64.emax m e l) as [mrs' e'].
  destruct (shr_fexp F64.prec F64.emax _ e' loc_Exact) as [mrs'' e''].
  destruct (shr_m mrs'') as [|p|p]; [reflexivity| |exact I].
  destruct (e'' <=? F64.emax - F64.prec); reflexivity.
Qed.

Lemma of_Z_nonneg_cases (z : Z) :
  0 <= z ->
  match F64.of_Z z with
  | S754_zero _ => True
  | S754_finite s _ _ => s = false
  | S754_infinity _ => True
  | S754_nan => True
  end.
Proof.
  intros Hz. unfold F64.of_Z, binary_normalize.
  destruct z as [|p|p]; [exact I| |lia].
  unfold binary_round.
  destruct (shl_align p 0 _) as [mz ez].
  pose proof (binary_round_aux_cases false (Z.pos mz) ez loc_Exact) as H.
  destruct (binary_round_aux F64.prec F64.emax false (Z.pos mz) ez loc_Exact);
    try exact I. exact H.
Qed.

Lemma trunc_mag_nonneg m e : 0 <= F64.trunc_mag m e.
Proof.
  unfold F64.trunc_mag. destruct (0 <=? e) eqn:E.
  - apply Z.leb_le in E. apply Z.mul_nonneg_nonneg; [lia|].
    apply Z.pow_nonneg. lia.
  - apply Z.div_pos; [lia|]. apply Z.pow_pos_nonneg; [lia|].
    apply Z.leb_gt in E. lia.
Qed.






Section FractionTheorems.
Context {X : External} {C : Collaborators}.


End FractionTheorems.

(** X14.  When the minority fraction is zero or negative and [batch] is
    not negative, [covid_size] is 1 whenever it is defined; when the
    fraction is a NaN, [covid_size] raises. *)
Theorem degenerate_fraction (args_dict : Args) :
  (0 <= batch args_dict -> non_positive (covid_percent args_dict) ->
   forall cs, covid_size args_dict = Ok cs -> cs = 1) /\
  (F64.is_nan (covid_percent args_dict) = true ->
   exists e, covid_size args_dict = Raise e).
Proof.
  split.
  - intros HB Hp cs. unfold covid_size, and_then, F64.of_int.
    pose proof (of_Z_nonneg_cases (batch args_dict) HB) as Hb.
    destruct (F64.of_Z (batch args_dict)) as [sb|sb| |sb mb eb]; try discriminate.
    + destruct (covid_percent args_dict) as [sp|sp| |sp mp ep]; try contradiction;
        cbn; intros H; apply Ok_inj in H; subst cs; reflexivity.
    + destruct (covid_percent args_dict) as [sp|sp| |sp mp ep]; try contradiction.
      * cbn. intros H; apply Ok_inj in H; subst cs; reflexivity.
      * cbn in Hp. subst sp sb. unfold F64.mul, SFmul. cbn [xorb].
        pose proof (binary_round_aux_cases true (Z.pos (mb * mp)) (eb + ep) loc_Exact) as Hs.
        destruct (binary_round_aux F64.prec F64.emax true (Z.pos (mb * mp)) (eb + ep) loc_Exact)
          as [s|s| |s m e]; try discriminate.
        -- cbn [F64.to_int]. intros H; apply Ok_inj in H; subst cs; reflexivity.
        -- subst s. cbn [F64.to_int cond_Zopp]. intros H; apply Ok_inj in H; subst cs.
           pose proof (trunc_mag_nonneg m e). lia.
  - intros Hn. unfold covid_size, and_then.
    destruct (F64.of_int (batch args_dict)) as [b|e]; [|eexists; reflexivity].
    destruct (covid_percent args_dict); try discriminate.
    replace (F64.mul b S754_nan) with S754_nan by (destruct b; reflexivity).
    eexists. reflexivity.
Qed.

Section PlotFacts.
Context {X : External} {C : Collaborators}.

Lemma test_sensitivities_app t1 t2 :
  test_sensitivities (t1 ++ t2) = test_sensitivities t1 ++ test_sensitivities t2.
Proof. apply flat_map_app. Qed.

Lemma training_no_test_plot t :
  Forall (fun ev => training_event ev = true) t -> test_sensitivities t = [].
Proof.
  induction 1 as [|ev t Hev _ IH]; [reflexivity|].
  unfold test_sensitivities in *. cbn [flat_map]. rewrite IH.
  destruct ev as [l|var_name split_name title_name x y| | | | | | | | | | | | | | | | | | |];
    try discriminate; try reflexivity.
  cbn [training_event] in Hev. apply String.eqb_eq in Hev. subst split_name.
  replace (String.eqb "train" "test") with false by reflexivity.
  rewrite andb_false_r. reflexivity.
Qed.

Lemma setup_no_test_plot t :
  Forall (fun ev => setup_event ev = true) t -> test_sensitivities t = [].
Proof.
  induction 1 as [|ev t Hev _ IH]; [reflexivity|].
  unfold test_sensitivities in *. cbn [flat_map]. rewrite IH.
  destruct ev; try discriminate; try reflexivity.
Qed.

(** X15.  In a run of [train_model] that returns, the points plotted for
    the sensitivity of the test split are, epoch by epoch from 0, the
    sensitivities the validation passes returned. *)
Theorem validation_plots_follow_validation (args_dict : Args) (w0 : World) wf tf :
  train_model args_dict w0 = (Ok tt, wf, tf) ->
  test_sensitivities tf =
    combine (range (epochs args_dict)) (map fst (validations tf)).
Proof.
  intros H. apply train_model_Ok in H.
  destruct H as (t_setup & dl_nc & dl_c & best0 & w1 & bf & t_loop & -> & Hs & _ & Hl).
  unfold validations. rewrite test_sensitivities_app, flat_map_app.
  fold (validations t_setup). fold (validations t_loop).
  rewrite (setup_no_test_plot _ Hs), (proj1 (proj2 (setup_no_checkpoint _ Hs))).
  cbn [app]. unfold train_loop in Hl.
  apply (for_each_Ok _ (fun e t => exists s a,
           validations t = [(s, a)] /\ test_sensitivities t = [(e, s)])) in Hl.
  - destruct Hl as (ts & -> & HF).
    induction HF as [|e t xs ts (s & a & Hv & Hp) _ IH]; [reflexivity|].
    cbn [List.concat]. unfold validations in *. rewrite test_sensitivities_app, flat_map_app.
    rewrite Hv, Hp, IH. reflexivity.
  - intros b e w b' w' t H. apply train_model_epoch_Ok in H.
    destruct H as (w2 & t_train & sens & acc & w3 & t_ck & Htr & Hv & Hck & ->).
    pose proof (trainEpoch_emits dl_nc dl_c e w) as Hem.
    rewrite Htr in Hem. cbn [snd] in Hem.
    exists sens, acc.
    unfold validations. rewrite !test_sensitivities_app, !flat_map_app.
    fold (validations t_train). fold (validations t_ck).
    rewrite (training_no_validation _ Hem), (training_no_test_plot _ Hem).
    rewrite checkpoint_policy_run in Hck.
    destruct (qualifies b sens acc);
      apply pair_equal_spec in Hck; destruct Hck as [_ <-]; split; reflexivity.
Qed.

End PlotFacts.

(** ** The properties on the concrete world *)

Import Demo.

(** C5.  The weight [trainEpoch] gives to [update] is [x_batch[0].size(0)],
    the number of channels of the first image, not the number of samples.
    On the concrete world: a combined batch of ten images of three
    channels adds 3 to the count of both meters; and over an epoch of two
    batches of 10 and 6 samples with losses 10 and 6, the plotted average
    loss is 8, where the average weighted by the number of samples is
    8.5. *)
Theorem running_average_weight_is_channel_count :
  (exists m w' t,
      train_batch Demo.dl_non_covid Demo.dl_covid 0 Demo.meters0
        (0, firstn 7 Demo.non_covid_pool) Demo.w0 = (Ok m, w', t) /\
      batch_sizes t = [10] /\
      AverageMeter.count (losses m) = 3 /\
      AverageMeter.count (accuracies m) = 3) /\
  (let t := snd (trainEpoch Demo.dl_non_covid Demo.dl_covid 0 Demo.w0) in
   batch_sizes t = [10; 6] /\
   In (Criterion (map (fun _ => 0) (range 10)) [0; 0; 0; 0; 0; 0; 0; 1; 1; 1] (F64.of_Z 10)) t /\
   In (Criterion (map (fun _ => 0) (range 6)) [0; 0; 0; 1; 1; 1] (F64.of_Z 6)) t /\
   In (Plot "loss" "train" "Cross Entropy Loss" 0 (F64.of_Z 8)) t /\
   AverageMeter.avg
     (AverageMeter.update (AverageMeter.update AverageMeter.init (F64.of_Z 10) 10)
        (F64.of_Z 6) 6) = F64.decimal 85 10).
Proof.
  split.
  - do 3 eexists. split; [vm_compute; reflexivity|].
    vm_compute. repeat split; reflexivity.
  - vm_compute. repeat split; try reflexivity; tauto.
Qed.

(** C7, as stated, fails: with the tag ["vgg"] the run is not rejected
    explicitly.  The line [model selected: vgg] is printed, and the
    exception is the failure to read the unbound variable. *)
Lemma unknown_model_not_rejected_explicitly :
  ~ rejected_explicitly (train_model (Demo.args "vgg" 3) Demo.w0) /\
  fst (fst (train_model (Demo.args "vgg" 3) Demo.w0)) = Raise (UnboundLocalError "model") /\
  snd (train_model (Demo.args "vgg" 3) Demo.w0) = [Print (ModelSelected "vgg")].
Proof.
  split; [|split; vm_compute; reflexivity].
  intros (e & He & Hne & Ht). vm_compute in Ht. discriminate Ht.
Qed.

Lemma unknown_model_fails_on_unbound_variable_witness :
  train_model (Demo.args "vgg" 3) Demo.w0 =
    (Raise (UnboundLocalError "model"),
     perform (Print (ModelSelected "vgg")) Demo.w0,
     [Print (ModelSelected "vgg")]).
Proof.
  apply (unknown_model_fails_on_unbound_variable (Demo.args "vgg" 3) Demo.w0);
    simpl; discriminate.
Defined.

(** C8, as stated, fails: a sensitivity of 2 and an accuracy of 1.5 are
    outside the unit interval, and the sensitivity becomes [best_sensit]
    and is saved in a checkpoint. *)
Lemma out_of_range_metrics_are_ratcheted :
  in_unit_interval (F64.of_Z 2) = false /\
  in_unit_interval (F64.decimal 15 10) = false /\
  fst (fst (after_validation 0 0 (F64.decimal 5 10) (F64.of_Z 2) (F64.decimal 15 10) Demo.w0))
    = Ok (F64.of_Z 2) /\
  saves (snd (after_validation 0 0 (F64.decimal 5 10) (F64.of_Z 2) (F64.decimal 15 10) Demo.w0))
    = true.
Proof. vm_compute. repeat split; reflexivity. Qed.

(** C3, as stated, fails: with [B = 10] and [p = 0.29] the product is
    2.9, the specification says [round(2.9) = 3] and the code computes
    [int(2.9) = 2]: every batch of the epoch has two minority samples,
    the ones of label 1.  With [p = 0.3] the last batch has three
    majority samples, not seven.  With [B = 1] no loader is built, the
    majority batch size being zero. *)
Lemma covid_size_is_truncated_not_rounded :
  covid_size (Demo.config "covidnet" 3 10 (F64.decimal 29 100)) = Ok 2 /\
  covid_size_spec (Demo.config "covidnet" 3 10 (F64.decimal 29 100)) = Ok 3 /\
  fst (fst (calculateDataLoaderTrain (Demo.config "covidnet" 3 10 (F64.decimal 29 100)) Demo.w0))
  = Ok (Edge.dl_non_covid_8, Edge.dl_covid_2) /\
  fst (fst Edge.epoch_029) = Ok tt /\
  batch_labels (snd Edge.epoch_029) = [[0; 0; 0; 0; 0; 0; 0; 0; 1; 1]; [0; 0; 1; 1]] /\
  batch_labels (snd Demo.epoch0) = [[0; 0; 0; 0; 0; 0; 0; 1; 1; 1]; [0; 0; 0; 1; 1; 1]] /\
  fst (fst (calculateDataLoaderTrain (Demo.config "covidnet" 3 1 (F64.decimal 3 10)) Demo.w0))
  = Raise (ValueError "batch_size should be a positive integer value, but got batch_size=0").
Proof. repeat split; vm_compute; reflexivity. Qed.

(** C4, as stated, fails: with [B = 10], ten majority samples and
    batches of seven, the last combined batch has six samples. *)
Lemma last_combined_batch_is_smaller :
  batch (Demo.args "covidnet" 3) = 10 /\
  fst (fst (calculateDataLoaderTrain (Demo.args "covidnet" 3) Demo.w0))
    = Ok (Demo.dl_non_covid, Demo.dl_covid) /\
  fst (fst (trainEpoch Demo.dl_non_covid Demo.dl_covid 0 Demo.w0)) = Ok tt /\
  batch_sizes (snd (trainEpoch Demo.dl_non_covid Demo.dl_covid 0 Demo.w0)) = [10; 6].
Proof. repeat split; vm_compute; reflexivity. Qed.

Lemma checkpoint_iff_qualifying_epoch_witness :
  exists b_e w_e t_pre b_e' w_e' t_e t_post sens acc,
    Demo.run 1 = (Ok b_e, w_e, t_pre) /\
    train_model_epoch Demo.dl_non_covid Demo.dl_covid 0 b_e 1 w_e = (Ok b_e', w_e', t_e) /\
    snd Demo.loop = t_pre ++ t_e ++ t_post /\
    validations t_e = [(sens, acc)] /\
    (saves t_e = true <->
     F64.ge acc min_accuracy = true /\ F64.gt sens b_e = true) /\
    (saves t_e = false -> b_e' = b_e).
Proof.
  apply (checkpoint_iff_qualifying_epoch
           (Demo.args "covidnet" 3) Demo.dl_non_covid Demo.dl_covid F64.zero Demo.w0
           (F64.decimal 80 100) (snd (fst Demo.loop)) (snd Demo.loop)).
  - vm_compute. reflexivity.
  - simpl. lia.
Defined.

Lemma best_sensit_non_decreasing_witness :
  ((F64.decimal 80 100 = F64.zero \/ F64.gt (F64.decimal 80 100) F64.zero = true) /\
   (F64.is_nan F64.zero = false -> F64.ge (F64.decimal 80 100) F64.zero = true)) /\
  (exists t_e sens acc,
      snd (Demo.run 2) = snd (Demo.run 1) ++ t_e /\
      validations t_e = [(sens, acc)] /\
      (F64.decimal 80 100 <> F64.zero ->
       F64.ge acc min_accuracy = true /\ F64.gt sens F64.zero = true) /\
      (F64.ge acc min_accuracy = true -> F64.gt sens F64.zero = true ->
       F64.decimal 80 100 = sens)).
Proof.
  destruct (best_sensit_non_decreasing Demo.dl_non_covid Demo.dl_covid F64.zero Demo.w0)
    as [Hmono Hstep].
  split.
  - apply (Hmono 1 3 F64.zero (snd (fst (Demo.run 1))) (snd (Demo.run 1))
             (F64.decimal 80 100) (snd (fst (Demo.run 3))) (snd (Demo.run 3))).
    + lia.
    + vm_compute. reflexivity.
    + vm_compute. reflexivity.
  - apply (Hstep 1 F64.zero (snd (fst (Demo.run 1))) (snd (Demo.run 1))
             (F64.decimal 80 100) (snd (fst (Demo.run 2)))).
    + lia.
    + vm_compute. reflexivity.
    + vm_compute. reflexivity.
Defined.

Lemma epochs_run_in_sequence_witness :
  exists t_setup dl_non_covid dl_covid ts,
    snd Demo.whole = t_setup ++ List.concat ts /\
    Forall (fun ev => setup_event ev = true) t_setup /\
    List.length ts = 3%nat /\
    Forall2 (epoch_trace dl_non_covid dl_covid) (range 3) ts.
Proof.
  apply (epochs_run_in_sequence (Demo.args "covidnet" 3) Demo.w0
           (snd (fst Demo.whole)) (snd Demo.whole)).
  vm_compute. reflexivity.
Defined.

Lemma minority_majority_batch_sizes_witness :
  (exists b n,
      F64.of_int 10 = Ok b /\
      F64.to_int (F64.mul b (F64.decimal 29 100)) = Ok n /\
      batch_size Edge.dl_covid_2 = Z.max n 1 /\
      batch_size Edge.dl_non_covid_8 = 10 - Z.max n 1 /\
      1 <= batch_size Edge.dl_non_covid_8 /\
      dataset Edge.dl_non_covid_8 <> [] /\ dataset Edge.dl_covid_2 <> []) /\
  draws Edge.dl_non_covid_8 Edge.dl_covid_2 8 2 (snd Edge.epoch_029) /\
  calculateDataLoaderTrain (Demo.config "resnet" 1 10 (F64.decimal 29 100)) Demo.w0 =
    (Ok ({| dataset := Demo.non_covid_pool; batch_size := 10 - Z.max 2 1 |},
         {| dataset := Demo.covid_pool; batch_size := Z.max 2 1 |}),
     perform (PreprocessSplit "train_split.txt" "data/train") Demo.w0,
     [PreprocessSplit "train_split.txt" "data/train"]) /\
  draws Demo.dl_non_covid Demo.dl_covid 7 3 (snd Demo.epoch0).
Proof.
  destruct (@minority_majority_batch_sizes Demo.ext Demo.collab) as (H1 & H2 & H3 & H4).
  split; [|split; [|split]].
  - apply (H1 (Demo.config "covidnet" 3 10 (F64.decimal 29 100)) Demo.w0
             Edge.dl_non_covid_8 Edge.dl_covid_2
             (perform (PreprocessSplit "train_split.txt" "data/train") Demo.w0)
             [PreprocessSplit "train_split.txt" "data/train"]).
    vm_compute. reflexivity.
  - apply (H2 (Demo.config "covidnet" 3 10 (F64.decimal 29 100)) Demo.w0
             Edge.dl_non_covid_8 Edge.dl_covid_2
             (perform (PreprocessSplit "train_split.txt" "data/train") Demo.w0)
             [PreprocessSplit "train_split.txt" "data/train"]
             0 Demo.w0 (snd (fst Edge.epoch_029)) (snd Edge.epoch_029)).
    + vm_compute. reflexivity.
    + vm_compute. reflexivity.
  - apply (H3 (Demo.config "resnet" 1 10 (F64.decimal 29 100)) Demo.w0 (F64.of_Z 10) 2).
    + vm_compute. reflexivity.
    + vm_compute. reflexivity.
    + vm_compute. reflexivity.
    + vm_compute. discriminate.
    + vm_compute. discriminate.
  - apply (H4 (Demo.args "covidnet" 3) Demo.w0 Demo.dl_non_covid Demo.dl_covid
             (perform (PreprocessSplit "train_split.txt" "data/train") Demo.w0)
             [PreprocessSplit "train_split.txt" "data/train"]
             0 Demo.w0 (snd (fst Demo.epoch0)) (snd Demo.epoch0)).
    + reflexivity.
    + reflexivity.
    + vm_compute. reflexivity.
    + vm_compute. reflexivity.
Defined.

Lemma combined_batch_sizes_witness :
  batch_size Demo.dl_non_covid + batch_size Demo.dl_covid = 10 /\
  batch_sizes (snd Demo.epoch0) =
    repeat 10 (Z.to_nat (len Demo.non_covid_pool / 7)) ++
    (if len Demo.non_covid_pool mod 7 =? 0 then []
     else [len Demo.non_covid_pool mod 7 + 3]).
Proof.
  apply (combined_batch_sizes (Demo.args "covidnet" 3) Demo.w0
           Demo.dl_non_covid Demo.dl_covid
           (snd (fst (calculateDataLoaderTrain (Demo.args "covidnet" 3) Demo.w0)))
           (snd (calculateDataLoaderTrain (Demo.args "covidnet" 3) Demo.w0))
           0 Demo.w0 (snd (fst Demo.epoch0)) (snd Demo.epoch0)).
  - vm_compute. reflexivity.
  - vm_compute. discriminate.
  - vm_compute. reflexivity.
Defined.

Lemma minority_batch_from_fresh_iterator_witness :
  exists perm0 steps plots,
    let batches := batch_sampler (Z.to_nat 7) [] perm0 in
    snd Demo.epoch0 = ModelTrain :: RandomSampler perm0 :: List.concat steps ++ plots /\
    Forall (fun ev => is_sampler ev = false) plots /\
    List.length steps = List.length batches /\
    Forall2 (fresh_minority_step Demo.dl_covid) (enumerate batches) steps.
Proof.
  apply (minority_batch_from_fresh_iterator Demo.dl_non_covid Demo.dl_covid 0 Demo.w0
           (snd (fst Demo.epoch0)) (snd Demo.epoch0)).
  - vm_compute. discriminate.
  - vm_compute. reflexivity.
Defined.

(** ** The further properties on the concrete world *)

Lemma checkpoints_strictly_improve_witness :
  exists best0,
    In (Resume best0) (snd Demo.whole) /\
    strictly_increasing_from best0 (saved_bests (snd Demo.whole)).
Proof.
  apply (checkpoints_strictly_improve (Demo.args "covidnet" 3) Demo.w0
           (snd (fst Demo.whole)) (snd Demo.whole)).
  vm_compute. reflexivity.
Defined.

Lemma best_sensit_is_last_checkpoint_witness :
  F64.decimal 80 100 = last (saved_bests (snd Demo.loop)) F64.zero /\
  (saves (snd Demo.loop) = false -> F64.decimal 80 100 = F64.zero).
Proof.
  apply (best_sensit_is_last_checkpoint (Demo.args "covidnet" 3)
           Demo.dl_non_covid Demo.dl_covid F64.zero Demo.w0
           (F64.decimal 80 100) (snd (fst Demo.loop)) (snd Demo.loop)).
  vm_compute. reflexivity.
Defined.

Lemma scheduler_sees_every_validation_witness :
  scheduler_metrics (snd Demo.whole) = map snd (validations (snd Demo.whole)) /\
  List.length (validations (snd Demo.whole)) = 3%nat.
Proof.
  apply (scheduler_sees_every_validation (Demo.args "covidnet" 3) Demo.w0
           (snd (fst Demo.whole)) (snd Demo.whole)).
  vm_compute. reflexivity.
Defined.

Lemma nan_never_checkpoints_witness :
  checkpoint_policy 0 0 F64.zero S754_nan (F64.decimal 9 10) Demo.w0
    = (Ok F64.zero, Demo.w0, []) /\
  (S754_nan = S754_nan /\ saves (snd Edge.nan_loop) = false).
Proof.
  destruct (@nan_never_checkpoints Demo.ext Demo.collab) as [Hp Hl].
  split.
  - apply Hp. right. left. reflexivity.
  - apply (Hl (Demo.args "covidnet" 3) Demo.dl_non_covid Demo.dl_covid S754_nan Demo.w0
              S754_nan (snd (fst Edge.nan_loop)) (snd Edge.nan_loop)).
    + reflexivity.
    + vm_compute. reflexivity.
Defined.

Lemma ties_do_not_checkpoint_and_threshold_does_witness :
  exists w' c,
    checkpoint_policy 0 0 F64.zero (F64.decimal 5 10) min_accuracy Demo.w0
      = (Ok (F64.decimal 5 10), w', [Print BestModelFound; SaveModel c]) /\
    ckpt_best_sensit c = F64.decimal 5 10 /\ curr_val c = min_accuracy.
Proof.
  destruct (@ties_do_not_checkpoint_and_threshold_does Demo.ext Demo.collab) as [_ H].
  apply (H 0 0 F64.zero (F64.decimal 5 10) Demo.w0).
  vm_compute. reflexivity.
Defined.


Lemma no_epoch_when_epochs_not_positive_witness :
  Forall (fun ev => setup_event ev = true)
    (snd (train_model (Demo.args "resnet" (-2)) Demo.w0)).
Proof.
  apply (no_epoch_when_epochs_not_positive (Demo.args "resnet" (-2)) Demo.w0).
  cbn. lia.
Defined.

Lemma training_epoch_steps_witness :
  exists perm0 steps meters,
    snd Demo.epoch0 = ModelTrain :: RandomSampler perm0 :: List.concat steps ++
        [Plot "loss" "train" "Cross Entropy Loss" 0 (AverageMeter.avg (losses meters));
         Plot "Acc" "train" "Accuracy" 0 (AverageMeter.avg (accuracies meters))] /\
    Permutation (dataset Demo.dl_non_covid) perm0 /\
    List.length steps = Z.to_nat (len_DataLoader Demo.dl_non_covid) /\
    chain (step_trace 0 (len_DataLoader Demo.dl_non_covid)) Demo.meters0
      (range (len_DataLoader Demo.dl_non_covid)) steps meters.
Proof.
  apply (training_epoch_steps Demo.dl_non_covid Demo.dl_covid 0 Demo.w0
           (snd (fst Demo.epoch0)) (snd Demo.epoch0)).
  - cbn. lia.
  - vm_compute. reflexivity.
Defined.

Lemma every_majority_sample_once_per_epoch_witness :
  exists parts : list (list Sample * list Sample),
    model_inputs (snd Demo.epoch0)
      = map (fun p => map image (fst p) ++ map image (snd p)) parts /\
    Permutation (dataset Demo.dl_non_covid) (List.concat (map fst parts)) /\
    Forall (fun p => exists rest, Permutation (dataset Demo.dl_covid) (snd p ++ rest)) parts.
Proof.
  apply (every_majority_sample_once_per_epoch Demo.dl_non_covid Demo.dl_covid 0 Demo.w0
           (snd (fst Demo.epoch0)) (snd Demo.epoch0)).
  vm_compute. reflexivity.
Defined.

Lemma small_minority_pool_is_used_whole_witness :
  exists parts : list (list Sample * list Sample),
    model_inputs (snd Edge.small_epoch)
      = map (fun p => map image (fst p) ++ map image (snd p)) parts /\
    Forall (fun p => Permutation (dataset Edge.dl_covid_small) (snd p)) parts /\
    batch_sizes (snd Edge.small_epoch)
      = map (fun p => len (fst p) + len (dataset Edge.dl_covid_small)) parts.
Proof.
  apply (small_minority_pool_is_used_whole Demo.dl_non_covid Edge.dl_covid_small 0 Demo.w0
           (snd (fst Edge.small_epoch)) (snd Edge.small_epoch)).
  - cbn. lia.
  - vm_compute. discriminate.
  - vm_compute. reflexivity.
Defined.

Lemma batch_of_one_builds_no_loader_witness :
  let a := Demo.config "covidnet" 3 1 (F64.decimal 3 10) in
  let ev := PreprocessSplit (train_txt a) (train_folder a) in
  exists e, calculateDataLoaderTrain a Demo.w0 = (Raise e, perform ev Demo.w0, [ev]).
Proof.
  apply (batch_of_one_builds_no_loader (Demo.config "covidnet" 3 1 (F64.decimal 3 10)) Demo.w0).
  cbn. lia.
Defined.


Lemma validation_plots_follow_validation_witness :
  test_sensitivities (snd Demo.whole) =
    combine (range 3) (map fst (validations (snd Demo.whole))).
Proof.
  apply (validation_plots_follow_validation (Demo.args "covidnet" 3) Demo.w0
           (snd (fst Demo.whole)) (snd Demo.whole)).
  vm_compute. reflexivity.
Defined.

Lemma degenerate_fraction_witness :
  (forall cs, covid_size (Demo.config "covidnet" 3 10 (F64.decimal (-3) 10)) = Ok cs -> cs = 1) /\
  (exists e, covid_size (Demo.config "covidnet" 3 10 S754_nan) = Raise e).
Proof.
  split.
  - apply (proj1 (degenerate_fraction (Demo.config "covidnet" 3 10 (F64.decimal (-3) 10)))).
    + cbn. lia.
    + vm_compute. reflexivity.
  - apply (proj2 (degenerate_fraction (Demo.config "covidnet" 3 10 S754_nan))).
    reflexivity.
Defined.
